(** * Plant Store API: the request handlers of server/app.py over the
      Plant model of server/models.py

    The handlers of the routes under /plants are embedded as functions
    from a database state to an outcome and a new database state.  What
    Python, Flask, SQLAlchemy and SQLite do underneath the handlers is
    written out next to the definition that relies on it. *)

From Stdlib Require Import ZArith List String Ascii Bool Lia DecimalString.
Import ListNotations.
Set Warnings "-register-all".
Local Open Scope string_scope.
Local Open Scope Z_scope.
Local Open Scope list_scope.

(** ** Python values *)

(** The exception classes the handlers can meet, with their base class.
    [InvalidOperation] is decimal.InvalidOperation, a DecimalException,
    itself an ArithmeticError; the SQLAlchemy classes are those of
    sqlalchemy.exc. *)
Inductive exn_class : Set :=
| Exception
| ArithmeticError
| OverflowError
| DecimalException
| InvalidOperation
| ValueError
| TypeError
| AttributeError
| SQLAlchemyError
| StatementError
| DBAPIError
| InterfaceError
| DatabaseError
| OperationalError
| IntegrityError.

Definition exn_class_eqb (c d : exn_class) : bool :=
  match c, d with
  | Exception, Exception
  | ArithmeticError, ArithmeticError
  | OverflowError, OverflowError
  | DecimalException, DecimalException
  | InvalidOperation, InvalidOperation
  | ValueError, ValueError
  | TypeError, TypeError
  | AttributeError, AttributeError
  | SQLAlchemyError, SQLAlchemyError
  | StatementError, StatementError
  | DBAPIError, DBAPIError
  | InterfaceError, InterfaceError
  | DatabaseError, DatabaseError
  | OperationalError, OperationalError
  | IntegrityError, IntegrityError => true
  | _, _ => false
  end.

Definition base_class (c : exn_class) : option exn_class :=
  match c with
  | Exception => None
  | ArithmeticError => Some Exception
  | OverflowError => Some ArithmeticError
  | DecimalException => Some ArithmeticError
  | InvalidOperation => Some DecimalException
  | ValueError => Some Exception
  | TypeError => Some Exception
  | AttributeError => Some Exception
  | SQLAlchemyError => Some Exception
  | StatementError => Some SQLAlchemyError
  | DBAPIError => Some StatementError
  | InterfaceError => Some DBAPIError
  | DatabaseError => Some DBAPIError
  | OperationalError => Some DatabaseError
  | IntegrityError => Some DatabaseError
  end.

(** [issubclass c d]; the longest chain of bases has six links. *)
Fixpoint issubclass_fuel (fuel : nat) (c d : exn_class) : bool :=
  exn_class_eqb c d ||
  match fuel with
  | O => false
  | S fuel' =>
      match base_class c with
      | Some b => issubclass_fuel fuel' b d
      | None => false
      end
  end.

Definition issubclass : exn_class -> exn_class -> bool := issubclass_fuel 6.

(** A raised exception: its class and the text [str(e)] gives. *)
Record pyexn : Set := mkExn { exc_class : exn_class; exc_text : string }.

(** [except (c1, c2, ...)] catches [e]. *)
Definition caught_by (e : pyexn) (classes : list exn_class) : bool :=
  existsb (issubclass (exc_class e)) classes.

(** What [request.get_json()] hands to a view, and what [jsonify] takes.
    A float is kept as the text Python's [repr] gives it (11.5 is
    [JFloat "11.5"], json's Infinity is [JFloat "inf"]): [str] and
    truthiness are all the handlers ask of one.  A str is the bytes of
    its UTF-8 form.  [JObj] lists the members of a JSON object in the
    order of the text. *)
Inductive json : Set :=
| JNull
| JBool (b : bool)
| JInt (z : Z)
| JFloat (repr : string)
| JStr (s : string)
| JArr (items : list json)
| JObj (members : list (string * json)).

Definition string_of_Z (z : Z) : string := NilZero.string_of_int (Z.to_int z).

(** [not v] is [negb (truthy v)]. *)
Definition truthy (v : json) : bool :=
  match v with
  | JNull => false
  | JBool b => b
  | JInt z => negb (z =? 0)
  | JFloat r => negb (String.eqb r "0.0" || String.eqb r "-0.0")
  | JStr s => negb (String.eqb s "")
  | JArr items => match items with [] => false | _ => true end
  | JObj members => match members with [] => false | _ => true end
  end.

(** The dict json.loads builds from the members: a later member with the
    same key replaces an earlier one. *)
Fixpoint dict_lookup (k : string) (members : list (string * json)) : option json :=
  match members with
  | [] => None
  | (k', v) :: rest =>
      match dict_lookup k rest with
      | Some w => Some w
      | None => if String.eqb k k' then Some v else None
      end
  end.

Fixpoint is_substring (k s : string) : bool :=
  String.prefix k s ||
  match s with
  | EmptyString => false
  | String _ s' => is_substring k s'
  end.

(** [k == x] for a str [k]. *)
Definition eq_str (k : string) (x : json) : bool :=
  match x with
  | JStr s => String.eqb k s
  | _ => false
  end.

(** [k in data]: key of a dict, element of a list, substring of a str;
    a number, a bool or None is not iterable. *)
Definition py_in (k : string) (data : json) : pyexn + bool :=
  match data with
  | JObj members =>
      inr (match dict_lookup k members with Some _ => true | None => false end)
  | JArr items => inr (existsb (eq_str k) items)
  | JStr s => inr (is_substring k s)
  | JNull | JBool _ | JInt _ | JFloat _ =>
      inl (mkExn TypeError "argument is not iterable")
  end.

(** [all(k in data for k in ks)]: the generator stops at the first False
    and lets an exception through. *)
Fixpoint all_in (ks : list string) (data : json) : pyexn + bool :=
  match ks with
  | [] => inr true
  | k :: ks' =>
      match py_in k data with
      | inl e => inl e
      | inr false => inr false
      | inr true => all_in ks' data
      end
  end.

(** [data.get(k)]: only a dict has the method. *)
Definition py_get (k : string) (data : json) : pyexn + json :=
  match data with
  | JObj members =>
      inr (match dict_lookup k members with Some v => v | None => JNull end)
  | _ => inl (mkExn AttributeError "object has no attribute 'get'")
  end.

(** [str(v)] for a value read from the body.  For a list or a dict only
    the opening bracket is kept: the rest is the repr of the elements, and
    all [Decimal] is asked below is whether the text is a numeric string,
    which nothing opening with a bracket is. *)
Definition py_str (v : json) : string :=
  match v with
  | JNull => "None"
  | JBool true => "True"
  | JBool false => "False"
  | JInt z => string_of_Z z
  | JFloat r => r
  | JStr s => s
  | JArr _ => "["
  | JObj _ => "{"
  end.

(** ** decimal.Decimal *)

(** A Decimal: sign, coefficient and exponent of a finite number
    (value [coeff * 10 ^ exp]), an infinity, or a quiet or signaling NaN
    with its diagnostic digits. *)
Inductive decimal : Set :=
| DFinite (neg : bool) (coeff : Z) (exp : Z)
| DInf (neg : bool)
| DNaN (neg : bool) (signaling : bool) (payload : Z).

Definition code (c : ascii) : Z := Z.of_N (N_of_ascii c).

Definition is_digit (c : ascii) : bool := (48 <=? code c) && (code c <=? 57).

(** The ASCII characters [str.strip()] removes. *)
Definition is_space (c : ascii) : bool :=
  ((9 <=? code c) && (code c <=? 13)) || ((28 <=? code c) && (code c <=? 32)).

Definition lower (c : ascii) : ascii :=
  if (65 <=? code c) && (code c <=? 90)
  then ascii_of_N (N_of_ascii c + 32)
  else c.

Fixpoint lstrip (s : list ascii) : list ascii :=
  match s with
  | c :: s' => if is_space c then lstrip s' else s
  | [] => []
  end.

Definition strip (s : list ascii) : list ascii :=
  rev (lstrip (rev (lstrip s))).

Definition is_underscore (c : ascii) : bool := code c =? 95.

(** The longest prefix of digits, and what follows it. *)
Fixpoint span_digits (s : list ascii) : list ascii * list ascii :=
  match s with
  | c :: s' =>
      if is_digit c
      then let (ds, rest) := span_digits s' in (c :: ds, rest)
      else ([], s)
  | [] => ([], [])
  end.

Definition digits_value (ds : list ascii) : Z :=
  fold_left (fun acc c => 10 * acc + (code c - 48)) ds 0.

Definition ascii_list_eqb (a b : list ascii) : bool :=
  String.eqb (string_of_list_ascii a) (string_of_list_ascii b).

(** An optional sign at the head of the text. *)
Definition split_sign (s : list ascii) : bool * list ascii :=
  match s with
  | c :: s' =>
      if code c =? 45 then (true, s')
      else if code c =? 43 then (false, s')
      else (false, s)
  | [] => (false, [])
  end.

(** An optional exponent, up to the end of the text: the letter E, an
    optional sign, at least one digit. *)
Definition parse_exponent (s : list ascii) : option Z :=
  match s with
  | [] => Some 0
  | c :: s' =>
      if code (lower c) =? 101
      then
        let (neg, s'') := split_sign s' in
        match span_digits s'' with
        | ((_ :: _) as ds, []) =>
            Some (if neg then - digits_value ds else digits_value ds)
        | _ => None
        end
      else None
  end.

(** Digits, an optional point and more digits, an optional exponent;
    the integer and the fractional part are not both empty. *)
Definition parse_number (neg : bool) (s : list ascii) : option decimal :=
  let (ip, r1) := span_digits s in
  let (fp, r2) :=
    match r1 with
    | c :: r => if code c =? 46 then span_digits r else ([], r1)
    | [] => ([], [])
    end in
  match ip ++ fp with
  | [] => None
  | ds =>
      match parse_exponent r2 with
      | Some e => Some (DFinite neg (digits_value ds) (e - Z.of_nat (List.length fp)))
      | None => None
      end
  end.

(** Inf or Infinity, or NaN or sNaN followed by digits; letters of
    either case. *)
Definition parse_special (neg : bool) (s : list ascii) : option decimal :=
  let l := map lower s in
  if ascii_list_eqb l (list_ascii_of_string "inf")
     || ascii_list_eqb l (list_ascii_of_string "infinity")
  then Some (DInf neg)
  else
    let (signaling, r) :=
      match l with
      | c :: r' => if code c =? 115 then (true, r') else (false, l)
      | [] => (false, [])
      end in
    if ascii_list_eqb (firstn 3 r) (list_ascii_of_string "nan")
    then
      match span_digits (skipn 3 r) with
      | (ds, []) => Some (DNaN neg signaling (digits_value ds))
      | _ => None
      end
    else None.

(** The grammar of a numeric string, after
    [value.strip().replace("_", "")]. *)
Definition parse_decimal (s : string) : option decimal :=
  let t := filter (fun c => negb (is_underscore c)) (strip (list_ascii_of_string s)) in
  let (neg, body) := split_sign t in
  match parse_number neg body with
  | Some d => Some d
  | None => parse_special neg body
  end.

(** The digits of a coefficient. *)
Definition digits_of (n : Z) : list ascii := list_ascii_of_string (string_of_Z n).

(** The bounds the C implementation of a 64-bit build puts on a finite
    number (decimal.MAX_EMAX and decimal.MIN_ETINY): the exponent of
    the first digit of the coefficient is at most [MAX_EMAX], the
    exponent of the last at least [MIN_ETINY].  The bound on the length
    of the coefficient, 999999999999999999 digits, is beyond any
    request. *)
Definition MAX_EMAX : Z := 999999999999999999.

Definition MIN_ETINY : Z := -1999999999999999997.

Definition within_limits (d : decimal) : bool :=
  match d with
  | DFinite _ coeff exp =>
      (exp + Z.of_nat (List.length (digits_of coeff)) - 1 <=? MAX_EMAX)
      && (MIN_ETINY <=? exp)
  | DInf _ | DNaN _ _ _ => true
  end.

(** [Decimal(s)] for a str [s]: the number, or decimal.InvalidOperation
    for a text that is no numeric string or lies beyond the limits.  The
    text is ASCII: the digits and spaces of other scripts, which
    [Decimal] also reads, are left out. *)
Definition Decimal (s : string) : pyexn + decimal :=
  match parse_decimal s with
  | Some d =>
      if within_limits d then inr d
      else inl (mkExn InvalidOperation "[<class 'decimal.InvalidOperation'>]")
  | None => inl (mkExn InvalidOperation "[<class 'decimal.ConversionSyntax'>]")
  end.

Definition zeros (n : Z) : list ascii := repeat "0"%char (Z.to_nat n).

Definition sign_text (neg : bool) : string := if neg then "-" else "".

(** [str(d)], which is also what [format] with an empty specification
    gives: plain digits while the exponent is at most 0 and the first
    digit stands no further right than the sixth place after the point,
    scientific notation otherwise. *)
Definition decimal_str (d : decimal) : string :=
  match d with
  | DInf neg => String.append (sign_text neg) "Infinity"
  | DNaN neg signaling payload =>
      String.append (sign_text neg)
        (String.append (if signaling then "sNaN" else "NaN")
           (if payload =? 0 then "" else string_of_Z payload))
  | DFinite neg coeff exp =>
      let int := digits_of coeff in
      let len := Z.of_nat (List.length int) in
      let leftdigits := exp + len in
      let dotplace := if (exp <=? 0) && (-6 <? leftdigits) then leftdigits else 1 in
      let (intpart, fracpart) :=
        if dotplace <=? 0
        then (["0"%char], "."%char :: zeros (- dotplace) ++ int)
        else if len <=? dotplace
        then (int ++ zeros (dotplace - len), [])
        else (firstn (Z.to_nat dotplace) int,
              "."%char :: skipn (Z.to_nat dotplace) int) in
      let e := leftdigits - dotplace in
      let exptext :=
        if e =? 0 then ""
        else String.append (if e <? 0 then "E-" else "E+") (string_of_Z (Z.abs e)) in
      String.append (sign_text neg)
        (String.append (string_of_list_ascii (intpart ++ fracpart)) exptext)
  end.

(** ** Floats: what SQLite keeps of a price *)

(** A binary64 float: [m * 2 ^ e] with [0 <= m < 2 ^ 53] and
    [-1074 <= e <= 971] and a sign, an infinity, or a NaN. *)
Inductive pyfloat : Set :=
| FFinite (neg : bool) (m : Z) (e : Z)
| FInf (neg : bool)
| FNaN.

(** [n / d] rounded to the nearest integer, a tie to the even one;
    [0 <= n], [0 < d]. *)
Definition round_half_even (n d : Z) : Z :=
  let q := n / d in
  let r := n mod d in
  if 2 * r <? d then q
  else if d <? 2 * r then q + 1
  else if Z.even q then q else q + 1.

(** The float nearest to [num / den], both positive: the exponent that
    leaves 53 bits of quotient, held at the smallest one, -1074; then one
    rounding; a result of [2 ^ 1024] or more is an infinity. *)
Definition float_of_ratio (neg : bool) (num den : Z) : pyfloat :=
  let l := Z.log2 num - Z.log2 den in
  let reaches := if 0 <=? l then den * 2 ^ l <=? num else den <=? num * 2 ^ (- l) in
  let e := Z.max ((if reaches then l else l - 1) - 52) (-1074) in
  let m := if 0 <=? e then round_half_even num (den * 2 ^ e)
           else round_half_even (num * 2 ^ (- e)) den in
  let (m, e) := if m =? 2 ^ 53 then (2 ^ 52, e + 1) else (m, e) in
  if 971 <? e then FInf neg else FFinite neg m e.

(** [float(d)], the bind processor of a Numeric column on a dialect
    without native decimals (processors.to_float): the float nearest to
    the decimal; a quiet NaN gives nan, a signaling one raises. *)
Definition to_float (d : decimal) : pyexn + pyfloat :=
  match d with
  | DFinite neg coeff exp =>
      inr (if coeff =? 0 then FFinite neg 0 0
           else if 0 <=? exp then float_of_ratio neg (coeff * 10 ^ exp) 1
           else float_of_ratio neg coeff (10 ^ (- exp)))
  | DInf neg => inr (FInf neg)
  | DNaN _ false _ => inr FNaN
  | DNaN _ true _ =>
      inl (mkExn ValueError "cannot convert signaling NaN to float")
  end.

(** [Decimal("%.2f" % value)], the result processor of Numeric(10, 2)
    (processors.to_decimal_processor_factory with scale 2): the stored
    number times 100, rounded to an integer, with exponent -2.
    ["%.2f" % inf] is the text inf, which [Decimal] reads as Infinity. *)
Definition to_decimal (value : pyfloat) : decimal :=
  match value with
  | FFinite neg m e =>
      DFinite neg
        (if 0 <=? e then m * 2 ^ e * 100 else round_half_even (m * 100) (2 ^ (- e)))
        (-2)
  | FInf neg => DInf neg
  | FNaN => DNaN false false 0
  end.

(** ** The plants table (server/models.py) *)

(** A row of [plants]: [id INTEGER NOT NULL PRIMARY KEY],
    [name VARCHAR NOT NULL], [image VARCHAR NOT NULL],
    [price NUMERIC(10, 2) NOT NULL].  SQLite has no decimal storage
    class: the price is kept as the number the bind processor made of
    it. *)
Record Plant : Set := mkPlant {
  id : Z;
  name : string;
  image : string;
  price : pyfloat
}.

(** [Plant.to_dict()] of SerializerMixin, as [jsonify] writes it (keys
    sorted): the price is read back through the result processor and
    formatted as a str. *)
Definition to_dict (plant : Plant) : json :=
  JObj [("id", JInt (id plant));
        ("image", JStr (image plant));
        ("name", JStr (name plant));
        ("price", JStr (decimal_str (to_decimal (price plant))))].

(** SQLite integers are 64 bits wide; the sqlite3 module refuses to bind
    a Python int outside them. *)
Definition MAX_ROWID : Z := 2 ^ 63 - 1.

Definition fits_int64 (z : Z) : bool := (- 2 ^ 63 <=? z) && (z <=? MAX_ROWID).

(** A column of NUMERIC affinity keeps a float that is a whole number as
    an integer, which loses the sign of a negative zero. *)
Definition numeric_affinity (f : pyfloat) : pyfloat :=
  match f with
  | FFinite neg m e => if m =? 0 then FFinite false 0 0 else f
  | _ => f
  end.

(** The largest id of the table; the first 64-bit integer stands for
    it in an empty table. *)
Definition max_id (table : list Plant) : Z :=
  fold_right (fun p acc => Z.max (id p) acc) (- 2 ^ 63) table.

Fixpoint find_row (key : Z) (table : list Plant) : option Plant :=
  match table with
  | [] => None
  | p :: rest => if id p =? key then Some p else find_row key rest
  end.

(** A table scan goes by rowid: a row inserted with its id takes its
    place before the first row of a greater id. *)
Fixpoint place_row (r : Plant) (t : list Plant) : list Plant :=
  match t with
  | [] => [r]
  | q :: t' => if id r <? id q then r :: t else q :: place_row r t'
  end.

(** The candidate SQLite makes of a number [random] of its random
    source: its low 62 bits, plus one. *)
Definition random_rowid (random : Z) : Z :=
  Z.land random (Z.shiftr MAX_ROWID 1) + 1.

(** Without AUTOINCREMENT (SQLAlchemy renders it only when asked with
    sqlite_autoincrement) an INTEGER PRIMARY KEY gets one more than the
    largest id in the table, and 1 in an empty table.  Once the largest
    id is the last 64-bit integer SQLite draws candidates at random
    until one is unused, and reports a full database when its tries are
    spent; [random] is the number it drew last, for an unused candidate
    or for the last used one. *)
Definition next_rowid (random : Z) (table : list Plant) : option Z :=
  match table with
  | [] => Some 1
  | _ =>
      if max_id table <? MAX_ROWID then Some (max_id table + 1)
      else
        match find_row (random_rowid random) table with
        | None => Some (random_rowid random)
        | Some _ => None
        end
  end.

(** [DELETE FROM plants WHERE plants.id = ?] *)
Definition delete_row (key : Z) (table : list Plant) : list Plant :=
  filter (fun p => negb (id p =? key)) table.

(** What a request meets in the persistence layer, set from outside: an
    exception for its queries, an exception for its commit, and the
    number SQLite draws last when its insert has to search for an
    unused rowid. *)
Record faults : Set := mkFaults {
  query_fault : option pyexn;
  commit_fault : option pyexn;
  rowid_random : Z
}.

Definition no_faults : faults := mkFaults None None 0.

(** A change the session holds until it is flushed. *)
Inductive change : Set :=
| Added (name image : json) (price : decimal)
| Deleted (key : Z).

(** The database as a request sees it: the committed table and the
    pending changes of the request's session. *)
Record db : Set := mkDb {
  table : list Plant;
  session : list change
}.

Section Persistence.

(** The text SQLite makes of a REAL that lands in a column of TEXT
    affinity, from the repr of the float. *)
Variable real_text : string -> string.

(** The value SQLite keeps in a VARCHAR column for a Python value bound
    to it; [None] is NULL.  A list or a dict cannot be bound: sqlite3
    raises its InterfaceError, from Python 3.11 its ProgrammingError,
    either one a DBAPI error that is no IntegrityError. *)
Definition bind_text (v : json) : pyexn + option string :=
  match v with
  | JNull => inr None
  | JBool b => inr (Some (if b then "1" else "0"))
  | JInt z =>
      if fits_int64 z then inr (Some (string_of_Z z))
      else inl (mkExn OverflowError "Python int too large to convert to SQLite INTEGER")
  | JFloat r => inr (if String.eqb r "nan" then None else Some (real_text r))
  | JStr s => inr (Some s)
  | JArr _ | JObj _ =>
      inl (mkExn InterfaceError "Error binding parameter: type is not supported")
  end.

(** The value kept for a price: the bind processor's float, a NaN
    becoming NULL. *)
Definition bind_price (d : decimal) : pyexn + option pyfloat :=
  match to_float d with
  | inl e => inl (mkExn StatementError (exc_text e))
  | inr FNaN => inr None
  | inr f => inr (Some (numeric_affinity f))
  end.

Definition integrity_error : pyexn :=
  mkExn IntegrityError "NOT NULL constraint failed".

(** [INSERT INTO plants (name, image, price) VALUES (?, ?, ?)]: the
    parameters are processed, then bound, then the row is checked and
    given its id. *)
Definition insert_row (random : Z) (n i : json) (p : decimal) (t : list Plant)
  : pyexn + (list Plant * Z) :=
  match bind_price p with
  | inl e => inl e
  | inr cp =>
      match bind_text n with
      | inl e => inl e
      | inr cn =>
          match bind_text i with
          | inl e => inl e
          | inr ci =>
              match cn, ci, cp with
              | Some tn, Some ti, Some fp =>
                  match next_rowid random t with
                  | Some k => inr (place_row (mkPlant k tn ti fp) t, k)
                  | None => inl (mkExn OperationalError "database or disk is full")
                  end
              | _, _, _ => inl integrity_error
              end
          end
      end
  end.

(** The flush of the pending changes, in order; with each change the
    primary key it gave to a new object.  A request of the views
    flushes one change. *)
Fixpoint flush (random : Z) (changes : list change) (t : list Plant)
  : pyexn + (list Plant * list (option Z)) :=
  match changes with
  | [] => inr (t, [])
  | Added n i p :: rest =>
      match insert_row random n i p t with
      | inl e => inl e
      | inr (t', k) =>
          match flush random rest t' with
          | inl e => inl e
          | inr (t'', keys) => inr (t'', Some k :: keys)
          end
      end
  | Deleted k :: rest =>
      match flush random rest (delete_row k t) with
      | inl e => inl e
      | inr (t'', keys) => inr (t'', None :: keys)
      end
  end.

(** [db.session.add(obj)] and [db.session.delete(obj)] *)
Definition session_add (c : change) (d : db) : db :=
  mkDb (table d) (session d ++ [c]).

(** [db.session.commit()]: all pending changes reach the table or none
    does; on an exception the session keeps them until it is rolled
    back. *)
Definition session_commit (fl : faults) (d : db)
  : pyexn + (db * list (option Z)) :=
  match commit_fault fl with
  | Some e => inl e
  | None =>
      match flush (rowid_random fl) (session d) (table d) with
      | inl e => inl e
      | inr (t', keys) => inr (mkDb t' [], keys)
      end
  end.

(** [db.session.rollback()] *)
Definition session_rollback (d : db) : db := mkDb (table d) [].

(** [Plant.query.all()] *)
Definition query_all (fl : faults) (d : db) : pyexn + list Plant :=
  match query_fault fl with
  | Some e => inl e
  | None => inr (table d)
  end.

(** [Plant.query.get(id)] *)
Definition query_get (fl : faults) (key : Z) (d : db) : pyexn + option Plant :=
  match query_fault fl with
  | Some e => inl e
  | None =>
      if fits_int64 key then inr (find_row key (table d))
      else inl (mkExn OverflowError "Python int too large to convert to SQLite INTEGER")
  end.

(** The load of an object the commit has expired (the session expires
    its objects on commit), by the key the flush gave it: the first
    attribute read after the commit sends the SELECT.  An object whose
    row is gone raises ObjectDeletedError, an InvalidRequestError. *)
Definition session_refresh (fl : faults) (key : Z) (d : db) : pyexn + Plant :=
  match query_fault fl with
  | Some e => inl e
  | None =>
      match find_row key (table d) with
      | Some plant => inr plant
      | None => inl (mkExn SQLAlchemyError "Instance has been deleted")
      end
  end.

End Persistence.

(** ** Responses and error handlers (server/app.py) *)

Record response : Set := mkResponse { status : Z; body : json }.

(** What a view does: it returns a response, or an exception leaves
    it. *)
Inductive outcome : Set :=
| Returned (r : response)
| Raised (e : pyexn).

(** Flask answers an exception that leaves a view with status 500; so
    does the debugger of the development server, which [app.run] starts
    with [debug=True]. *)
Definition status_of (o : outcome) : Z :=
  match o with
  | Returned r => status r
  | Raised _ => 500
  end.

(** The argument of an error handler: Flask calls it with the exception
    it handles, the views call it with a str. *)
Inductive error_arg : Set :=
| ErrorExc (e : pyexn)
| ErrorText (s : string).

Definition not_found (error : error_arg) : response :=
  let message :=
    match error with
    | ErrorExc e => exc_text e
    | ErrorText _ => "Resource not found"
    end in
  mkResponse 404 (JObj [("error", JStr message)]).

Definition bad_request (error : error_arg) : response :=
  let message :=
    match error with
    | ErrorExc e => exc_text e
    | ErrorText _ => "Bad Request"
    end in
  mkResponse 400 (JObj [("error", JStr message)]).

Definition internal_server_error (error : error_arg) : response :=
  let message :=
    match error with
    | ErrorExc e => exc_text e
    | ErrorText _ => "Internal Server Error"
    end in
  mkResponse 500 (JObj [("error", JStr message)]).

Definition id_not_found (key : Z) : string :=
  String.append "Plant with id " (String.append (string_of_Z key) " not found").

Definition id_deleted (key : Z) : string :=
  String.append "Plant with id "
    (String.append (string_of_Z key) " successfully deleted").

(** ** The views *)

Section Views.

Variable real_text : string -> string.

(** GET /plants *)
Definition get_plants (fl : faults) (d : db) : outcome * db :=
  match query_all fl d with
  | inr plants => (Returned (mkResponse 200 (JArr (map to_dict plants))), d)
  | inl e =>
      (Returned (internal_server_error (ErrorText (exc_text e))),
       session_rollback d)
  end.

(** GET /plants/<int:id>; the converter of the route hands over an id
    that is not negative.  The query stands before the [try], and
    [to_dict] of a row read from the table raises nothing. *)
Definition get_plant_by_id (fl : faults) (plant_id : Z) (d : db) : outcome * db :=
  match query_get fl plant_id d with
  | inl e => (Raised e, d)
  | inr None => (Returned (not_found (ErrorText (id_not_found plant_id))), d)
  | inr (Some plant) => (Returned (mkResponse 200 (to_dict plant)), d)
  end.

(** Lines 104 to 109, the body of the second [try] of [create_plant]:
    the new object is added and committed; the commit expires it, so
    [to_dict] reads its row again, after the commit and still inside
    the [try]: an exception of that query finds the row committed. *)
Definition create_body (fl : faults) (name image : json) (price : decimal) (d : db)
  : (pyexn + response) * db :=
  let d1 := session_add (Added name image price) d in
  match session_commit real_text fl d1 with
  | inl e => (inl e, d1)
  | inr (d2, keys) =>
      match nth (List.length (session d)) keys None with
      | Some k =>
          match session_refresh fl k d2 with
          | inr new_plant => (inr (mkResponse 201 (to_dict new_plant)), d2)
          | inl e => (inl e, d2)
          end
      | None => (inl (mkExn SQLAlchemyError "instance has no key"), d2)
      end
  end.

(** POST /plants *)
Definition create_plant (fl : faults) (data : json) (d : db) : outcome * db :=
  let missing :=
    bad_request (ErrorText "Missing required fields: 'name', 'image', and 'price'") in
  if negb (truthy data) then (Returned missing, d)
  else
    match all_in ["name"; "image"; "price"] data with
    | inl e => (Raised e, d)
    | inr false => (Returned missing, d)
    | inr true =>
        match py_get "name" data, py_get "image" data, py_get "price" data with
        | inr name, inr image, inr price_str =>
            if negb (truthy name) || negb (truthy image)
               || match price_str with JNull => true | _ => false end
            then
              (Returned
                 (bad_request (ErrorText "Name, image, and price cannot be empty.")),
               d)
            else
              match Decimal (py_str price_str) with
              | inl e =>
                  if caught_by e [ValueError; TypeError]
                  then
                    (Returned
                       (bad_request (ErrorText "Price must be a valid number.")),
                     d)
                  else (Raised e, d)
              | inr price =>
                  match create_body fl name image price d with
                  | (inr created, d') => (Returned created, d')
                  | (inl e, d') =>
                      if caught_by e [IntegrityError]
                      then
                        (Returned
                           (bad_request
                              (ErrorText
                                 "Failed to create plant due to data integrity issue.")),
                         session_rollback d')
                      else if caught_by e [Exception]
                      then
                        (Returned (internal_server_error (ErrorText (exc_text e))),
                         session_rollback d')
                      else (Raised e, d')
                  end
              end
        | inl e, _, _ => (Raised e, d)
        | _, inl e, _ => (Raised e, d)
        | _, _, inl e => (Raised e, d)
        end
    end.

(** DELETE /plants/<int:id>; the query stands before the [try]. *)
Definition delete_plant (fl : faults) (plant_id : Z) (d : db) : outcome * db :=
  match query_get fl plant_id d with
  | inl e => (Raised e, d)
  | inr None => (Returned (not_found (ErrorText (id_not_found plant_id))), d)
  | inr (Some plant) =>
      let d1 := session_add (Deleted (id plant)) d in
      match session_commit real_text fl d1 with
      | inr (d2, _) =>
          (Returned (mkResponse 200 (JObj [("message", JStr (id_deleted plant_id))])),
           d2)
      | inl e =>
          if caught_by e [Exception]
          then
            (Returned (internal_server_error (ErrorText (exc_text e))),
             session_rollback d1)
          else (Raised e, d1)
      end
  end.

(** ** Requests in sequence *)

Inductive request : Set :=
| GetPlants
| GetPlant (plant_id : Z)
| CreatePlant (data : json)
| DeletePlant (plant_id : Z).

Definition handle (fl : faults) (req : request) (d : db) : outcome * db :=
  match req with
  | GetPlants => get_plants fl d
  | GetPlant k => get_plant_by_id fl k d
  | CreatePlant data => create_plant fl data d
  | DeletePlant k => delete_plant fl k d
  end.

(** Flask-SQLAlchemy removes the session when the request ends, which
    drops whatever it still holds. *)
Definition teardown (d : db) : db := mkDb (table d) [].

Definition serve (fl : faults) (req : request) (d : db) : outcome * db :=
  let (o, d') := handle fl req d in (o, teardown d').

(** The requests are served one after the other, each with the faults it
    meets; the outcomes come in the order of the requests. *)
Fixpoint run (reqs : list (faults * request)) (d : db) : list outcome * db :=
  match reqs with
  | [] => ([], d)
  | (fl, req) :: rest =>
      let (o, d') := serve fl req d in
      let (os, d'') := run rest d' in
      (o :: os, d'')
  end.

End Views.

(** ** The repr of a Plant (server/models.py) *)



(** ** The seeding script (server/seed.py) *)

Module Seed.

(** A Plant the script builds with its id. *)
Record new_plant : Set := mkNew {
  new_id : Z;
  new_name : string;
  new_image : string;
  new_price : decimal
}.

(** [Decimal('11.50')] and [Decimal('25.98')] are the numbers 1150 and
    2598 with exponent -2. *)
Definition aloe : new_plant :=
  mkNew 1 "Aloe" "./images/aloe.jpg" (DFinite false 1150 (-2)).

Definition zz_plant : new_plant :=
  mkNew 2 "ZZ Plant" "./images/zz-plant.jpg" (DFinite false 2598 (-2)).

(** [INSERT INTO plants (id, name, image, price) VALUES (?, ?, ?, ?)]:
    the price goes through its bind processor, and an id some row
    already has breaks the primary key. *)
Definition insert_with_id (p : new_plant) (t : list Plant) : pyexn + list Plant :=
  match bind_price (new_price p) with
  | inl e => inl e
  | inr None => inl integrity_error
  | inr (Some f) =>
      if fits_int64 (new_id p)
      then
        match find_row (new_id p) t with
        | Some _ => inl (mkExn IntegrityError "UNIQUE constraint failed: plants.id")
        | None => inr (place_row (mkPlant (new_id p) (new_name p) (new_image p) f) t)
        end
      else inl (mkExn OverflowError "Python int too large to convert to SQLite INTEGER")
  end.

(** The flush of the objects [add_all] handed to the session, in the
    order of the list. *)
Fixpoint insert_all (ps : list new_plant) (t : list Plant) : pyexn + list Plant :=
  match ps with
  | [] => inr t
  | p :: rest =>
      match insert_with_id p t with
      | inl e => inl e
      | inr t' => insert_all rest t'
      end
  end.

(** Lines 15 and 16, the body of the first [try]: [Plant.query.delete()]
    removes every row, and the commit makes it last. *)
Definition delete_all (fl : faults) (t : list Plant) : pyexn + list Plant :=
  match query_fault fl with
  | Some e => inl e
  | None =>
      match commit_fault fl with
      | Some e => inl e
      | None => inr []
      end
  end.

(** Line 47, the body of the second [try]: the commit flushes the two
    new objects; all of it reaches the table or none does. *)
Definition commit_all (fl : faults) (ps : list new_plant) (t : list Plant)
  : pyexn + list Plant :=
  match commit_fault fl with
  | Some e => inl e
  | None => insert_all ps t
  end.

(** The script, from a table [t], with the faults its first and its
    second [try] meet: the lines it prints and the table it leaves; an
    exception that is no [Exception] would leave it. *)
Definition seed (fl1 fl2 : faults) (t : list Plant)
  : pyexn + (list string * list Plant) :=
  let out0 := ["Seeding database..."] in
  let cleared :=
    match delete_all fl1 t with
    | inr t' => inr (out0 ++ ["Existing plants deleted."], t')
    | inl e =>
        if caught_by e [Exception]
        then
          inr (out0
               ++ [String.append
                     "Error deleting existing plants (table might not exist yet): "
                     (exc_text e)],
               t)
        else inl e
    end in
  match cleared with
  | inl e => inl e
  | inr (out1, t1) =>
      match commit_all fl2 [aloe; zz_plant] t1 with
      | inr t2 => inr (out1 ++ ["Plants seeded successfully!"], t2)
      | inl e =>
          if caught_by e [Exception]
          then inr (out1 ++ [String.append "Error seeding plants: " (exc_text e)], t1)
          else inl e
      end
  end.

End Seed.

(** ** What the statements below speak of *)

Definition is_null (v : json) : bool :=
  match v with JNull => true | _ => false end.

(** [k in data] holds; nothing is in a value that cannot be searched. *)
Definition has_key (k : string) (data : json) : bool :=
  match py_in k data with
  | inr b => b
  | inl _ => false
  end.

(** A number or a bool that is truthy: [not data] is False and
    [k in data] is asked of it. *)
Definition truthy_number (data : json) : bool :=
  match data with
  | JBool _ | JInt _ | JFloat _ => truthy data
  | _ => false
  end.

(** The value of a member of the body, None for a missing one, as
    [data.get] gives it. *)
Definition member (k : string) (m : list (string * json)) : json :=
  match dict_lookup k m with Some v => v | None => JNull end.

(** The number of records GET /plants returns. *)
Definition listed (d : db) : Z :=
  match fst (get_plants no_faults d) with
  | Returned (mkResponse _ (JArr items)) => Z.of_nat (List.length items)
  | _ => -1
  end.

(** The identity stands for [real_text] where a statement is evaluated:
    no float is bound to a text column there. *)
Definition repr_text : string -> string := fun r => r.

(** The primary key: no two rows share an id. *)
Definition primary_key (t : list Plant) : Prop := NoDup (map id t).

Definition is_nan (d : decimal) : bool :=
  match d with DNaN _ _ _ => true | _ => false end.

Definition is_finite (d : decimal) : bool :=
  match d with DFinite _ _ _ => true | _ => false end.

(** The number of digits after the point in a text made of an optional
    minus sign, digits, a point and digits; [None] for any other
    text. *)
Definition fraction_digits (s : string) : option nat :=
  let t := list_ascii_of_string s in
  let t :=
    match t with
    | c :: t' => if code c =? 45 then t' else t
    | [] => []
    end in
  match span_digits t with
  | (_ :: _, c :: rest) =>
      if code c =? 46
      then
        match span_digits rest with
        | (ds, []) => Some (List.length ds)
        | _ => None
        end
      else None
  | _ => None
  end.

(** The price member of a serialized record. *)
Definition price_of (o : outcome) : option json :=
  match o with
  | Returned r =>
      match body r with
      | JObj m => dict_lookup "price" m
      | _ => None
      end
  | Raised _ => None
  end.

(** A non-empty list or dict: truthy, and nothing a column can hold. *)
Definition unbindable (v : json) : bool :=
  match v with
  | JArr (_ :: _) | JObj (_ :: _) => true
  | _ => false
  end.

(** The rows the seeding script leaves: the prices are the floats
    nearest to 11.50 and to 25.98. *)
Definition seeded_aloe : Plant :=
  mkPlant 1 "Aloe" "./images/aloe.jpg" (FFinite false 6473924464345088 (-49)).

Definition seeded_zz_plant : Plant :=
  mkPlant 2 "ZZ Plant" "./images/zz-plant.jpg" (FFinite false 7312719894942843 (-48)).

(** The views that change the table, and the status of their success. *)
Definition mutating (req : request) : bool :=
  match req with
  | CreatePlant _ | DeletePlant _ => true
  | GetPlants | GetPlant _ => false
  end.



(** A create answered 201, a delete answered 200. *)
Definition created (req : request) (o : outcome) : bool :=
  match req with
  | CreatePlant _ => status_of o =? 201
  | _ => false
  end.

Definition deleted (req : request) (o : outcome) : bool :=
  match req with
  | DeletePlant _ => status_of o =? 200
  | _ => false
  end.


(** A request whose reading of a new row after the commit meets no
    exception; a create is the only view that reads after its commit. *)
Definition reads_back (fr : faults * request) : bool :=
  match snd fr with
  | CreatePlant _ =>
      match query_fault (fst fr) with
      | None => true
      | Some _ => false
      end
  | _ => true
  end.

(** The id in the body of a 201 answer. *)
Definition created_id (o : outcome) : option Z :=
  match o with
  | Returned r =>
      if status r =? 201
      then
        match body r with
        | JObj m => match dict_lookup "id" m with Some (JInt k) => Some k | _ => None end
        | _ => None
        end
      else None
  | Raised _ => None
  end.

Definition empty_db : db := mkDb [] [].

Definition aloe (price : json) : json :=
  JObj [("name", JStr "Aloe"); ("image", JStr "./images/aloe.jpg"); ("price", price)].

(** Two valid creates around one with an unreadable price, the same
    delete twice, and a listing. *)
Definition sample_requests : list (faults * request) :=
  [(no_faults, CreatePlant (aloe (JStr "11.50")));
   (no_faults, CreatePlant (aloe (JStr "abc")));
   (no_faults, CreatePlant (aloe (JInt 7)));
   (no_faults, DeletePlant 1);
   (no_faults, DeletePlant 1);
   (no_faults, GetPlants)].

(** * Properties *)

(** ** The checks of [create_plant] on a JSON object *)

Lemma all_in_object (m : list (string * json)) :
  all_in ["name"; "image"; "price"] (JObj m) =
  inr (match dict_lookup "name" m, dict_lookup "image" m, dict_lookup "price" m with
       | Some _, Some _, Some _ => true
       | _, _, _ => false
       end).
Proof.
  cbn [all_in py_in].
  destruct (dict_lookup "name" m); [| reflexivity].
  destruct (dict_lookup "image" m); [| reflexivity].
  destruct (dict_lookup "price" m); reflexivity.
Qed.

Lemma lookup_in_empty_object (k : string) (m : list (string * json)) :
  truthy (JObj m) = false -> dict_lookup k m = None.
Proof.
  destruct m; [reflexivity | discriminate].
Qed.

(** On an object, [create_plant] depends on the three members alone. *)
Lemma create_plant_object rt fl (m : list (string * json)) (d : db) :
  create_plant rt fl (JObj m) d =
  match dict_lookup "name" m, dict_lookup "image" m, dict_lookup "price" m with
  | Some n, Some i, Some p =>
      if negb (truthy n) || negb (truthy i) || is_null p
      then
        (Returned (bad_request (ErrorText "Name, image, and price cannot be empty.")), d)
      else
        match Decimal (py_str p) with
        | inl e =>
            if caught_by e [ValueError; TypeError]
            then (Returned (bad_request (ErrorText "Price must be a valid number.")), d)
            else (Raised e, d)
        | inr price =>
            match create_body rt fl n i price d with
            | (inr created, d') => (Returned created, d')
            | (inl e, d') =>
                if caught_by e [IntegrityError]
                then
                  (Returned
                     (bad_request
                        (ErrorText "Failed to create plant due to data integrity issue.")),
                   session_rollback d')
                else if caught_by e [Exception]
                then
                  (Returned (internal_server_error (ErrorText (exc_text e))),
                   session_rollback d')
                else (Raised e, d')
            end
        end
  | _, _, _ =>
      (Returned
         (bad_request (ErrorText "Missing required fields: 'name', 'image', and 'price'")),
       d)
  end.
Proof.
  unfold create_plant.
  destruct (truthy (JObj m)) eqn:Ht; cbn [negb].
  - rewrite all_in_object. unfold py_get.
    destruct (dict_lookup "name" m) as [n|]; [| reflexivity].
    destruct (dict_lookup "image" m) as [i|]; [| reflexivity].
    destruct (dict_lookup "price" m) as [p|]; [| reflexivity].
    destruct p; reflexivity.
  - rewrite (lookup_in_empty_object "name" m Ht). reflexivity.
Qed.

Lemma Decimal_raises (s : string) (e : pyexn) :
  Decimal s = inl e -> exc_class e = InvalidOperation.
Proof.
  unfold Decimal. destruct (parse_decimal s) as [d |].
  - destruct (within_limits d); [discriminate |].
    intros H. injection H as <-. reflexivity.
  - intros H. injection H as <-. reflexivity.
Qed.

(** ** The table *)

Lemma max_id_bounds (t : list Plant) (p : Plant) :
  In p t -> id p <= max_id t.
Proof.
  induction t as [| q t IH]; intros Hin; [contradiction |].
  cbn [max_id fold_right]. fold (max_id t).
  destruct Hin as [-> | Hin]; [lia | specialize (IH Hin); lia].
Qed.

Lemma find_row_found (k : Z) (t : list Plant) (p : Plant) :
  find_row k t = Some p -> In p t /\ id p = k.
Proof.
  induction t as [| q t IH]; cbn [find_row]; [discriminate |].
  destruct (Z.eqb_spec (id q) k) as [E | E].
  - intros H. injection H as <-. split; [now left | lia].
  - intros H. destruct (IH H). split; [now right | assumption].
Qed.

Lemma find_row_missing (k : Z) (t : list Plant) :
  find_row k t = None <-> ~ In k (map id t).
Proof.
  induction t as [| q t IH]; cbn [find_row map In]; [tauto |].
  destruct (Z.eqb_spec (id q) k) as [E | E].
  - split; [discriminate | intros H; exfalso; apply H; left; lia].
  - rewrite IH. split; [intros H [H' | H']; [lia | tauto] | tauto].
Qed.

Lemma find_row_last (k : Z) (t : list Plant) (r : Plant) :
  find_row k t = None ->
  find_row k (t ++ [r]) = if id r =? k then Some r else None.
Proof.
  induction t as [| q t IH]; cbn [find_row app]; [reflexivity |].
  destruct (id q =? k); [discriminate | exact IH].
Qed.

Lemma next_rowid_fresh (random : Z) (t : list Plant) (k : Z) :
  next_rowid random t = Some k -> find_row k t = None.
Proof.
  unfold next_rowid. destruct t as [| q t].
  - intros _. reflexivity.
  - destruct (Z.ltb_spec (max_id (q :: t)) MAX_ROWID) as [Hlt | _].
    + intros H. injection H as <-.
      apply find_row_missing. intros Hin.
      apply in_map_iff in Hin. destruct Hin as [p [Hp Hin]].
      pose proof (max_id_bounds (q :: t) p Hin) as Hb.
      change (max_id (q :: t)) with (Z.max (id q) (max_id t)) in Hb. lia.
    + destruct (find_row (random_rowid random) (q :: t)) eqn:Hf; [discriminate |].
      intros H. injection H as <-. exact Hf.
Qed.

Lemma find_row_placed (r : Plant) (t : list Plant) :
  find_row (id r) t = None -> find_row (id r) (place_row r t) = Some r.
Proof.
  induction t as [| q t IH]; cbn [place_row find_row].
  - now rewrite Z.eqb_refl.
  - destruct (Z.eqb_spec (id q) (id r)) as [E | E]; [discriminate |].
    intros Hf. destruct (id r <? id q); cbn [find_row].
    + rewrite Z.eqb_refl. reflexivity.
    + destruct (Z.eqb_spec (id q) (id r)); [contradiction | now apply IH].
Qed.

Lemma find_row_placed_other (j : Z) (r : Plant) (t : list Plant) :
  j <> id r -> find_row j (place_row r t) = find_row j t.
Proof.
  intros Hne. induction t as [| q t IH]; cbn [place_row find_row].
  - destruct (Z.eqb_spec (id r) j); [congruence | reflexivity].
  - destruct (id r <? id q); cbn [find_row].
    + destruct (Z.eqb_spec (id r) j); [congruence | reflexivity].
    + destruct (id q =? j); [reflexivity | exact IH].
Qed.

Lemma in_placed (x : Z) (r : Plant) (t : list Plant) :
  In x (map id (place_row r t)) <-> x = id r \/ In x (map id t).
Proof.
  induction t as [| q t IH]; cbn [place_row map In].
  - intuition congruence.
  - destruct (id r <? id q); cbn [map In]; [intuition congruence |].
    rewrite IH. intuition congruence.
Qed.

Lemma primary_key_placed (r : Plant) (t : list Plant) :
  primary_key t -> find_row (id r) t = None -> primary_key (place_row r t).
Proof.
  unfold primary_key. intros Hnd Hf. apply find_row_missing in Hf.
  induction t as [| q t IH]; cbn [place_row map].
  - repeat constructor. intros [].
  - cbn [map] in Hnd, Hf. inversion Hnd as [| ? ? Hnotin Hnd']; subst.
    destruct (id r <? id q); cbn [map].
    + constructor; assumption.
    + constructor.
      * rewrite in_placed. intros [E | Hin]; [apply Hf; now left | contradiction].
      * apply IH; [assumption |]. intros Hin. apply Hf. now right.
Qed.

Lemma place_row_length (r : Plant) (t : list Plant) :
  List.length (place_row r t) = S (List.length t).
Proof.
  induction t as [| q t IH]; cbn [place_row]; [reflexivity |].
  destruct (id r <? id q); cbn [List.length]; [reflexivity | now rewrite IH].
Qed.

(** A row whose id is above every id of the table goes to the end. *)
Lemma place_row_last (r : Plant) (t : list Plant) :
  max_id t < id r -> place_row r t = t ++ [r].
Proof.
  induction t as [| q t IH]; cbn [place_row app]; [reflexivity |].
  change (max_id (q :: t)) with (Z.max (id q) (max_id t)). intros Hlt.
  destruct (Z.ltb_spec (id r) (id q)); [lia |].
  rewrite IH by lia. reflexivity.
Qed.

Lemma max_id_placed (r : Plant) (t : list Plant) :
  max_id (place_row r t) = Z.max (max_id t) (id r).
Proof.
  induction t as [| q t IH]; cbn [place_row].
  - cbn. lia.
  - destruct (id r <? id q).
    + change (max_id (r :: q :: t)) with (Z.max (id r) (max_id (q :: t))). lia.
    + change (max_id (q :: place_row r t)) with (Z.max (id q) (max_id (place_row r t))).
      change (max_id (q :: t)) with (Z.max (id q) (max_id t)).
      rewrite IH. lia.
Qed.

Lemma find_row_deleted (k : Z) (t : list Plant) :
  find_row k (delete_row k t) = None.
Proof.
  induction t as [| q t IH]; cbn [delete_row filter find_row]; [reflexivity |].
  fold (delete_row k t).
  destruct (Z.eqb_spec (id q) k) as [E | E]; cbn [negb find_row]; [exact IH |].
  destruct (Z.eqb_spec (id q) k); [contradiction | exact IH].
Qed.

Lemma find_row_other (j k : Z) (t : list Plant) :
  j <> k -> find_row j (delete_row k t) = find_row j t.
Proof.
  intros Hjk.
  induction t as [| q t IH]; cbn [delete_row filter find_row]; [reflexivity |].
  fold (delete_row k t).
  destruct (Z.eqb_spec (id q) k) as [E | E]; cbn [negb find_row].
  - destruct (Z.eqb_spec (id q) j); [lia | exact IH].
  - destruct (id q =? j); [reflexivity | exact IH].
Qed.

Lemma delete_row_missing (k : Z) (t : list Plant) :
  find_row k t = None -> delete_row k t = t.
Proof.
  induction t as [| q t IH]; cbn [delete_row filter find_row]; [reflexivity |].
  fold (delete_row k t).
  destruct (id q =? k); [discriminate |].
  intros H. cbn [negb]. now rewrite IH.
Qed.

Lemma delete_row_length (k : Z) (t : list Plant) (p : Plant) :
  primary_key t -> find_row k t = Some p ->
  Z.of_nat (List.length (delete_row k t)) = Z.of_nat (List.length t) - 1.
Proof.
  unfold primary_key.
  induction t as [| q t IH]; cbn [find_row]; [discriminate |].
  intros Hnd Hf. cbn [map] in Hnd. inversion Hnd as [| ? ? Hnotin Hnd']; subst.
  cbn [delete_row filter]. fold (delete_row k t).
  destruct (Z.eqb_spec (id q) k) as [E | E]; cbn [negb].
  - assert (Hm : find_row k t = None).
    { apply find_row_missing. replace k with (id q) by lia. assumption. }
    rewrite (delete_row_missing k t Hm). cbn [List.length]. lia.
  - cbn [List.length]. specialize (IH Hnd' Hf). lia.
Qed.

Lemma primary_key_delete (k : Z) (t : list Plant) :
  primary_key t -> primary_key (delete_row k t).
Proof.
  unfold primary_key.
  induction t as [| q t IH]; cbn [delete_row filter map]; [trivial |].
  fold (delete_row k t).
  intros Hnd. inversion Hnd as [| ? ? Hnotin Hnd']; subst.
  destruct (id q =? k); cbn [negb map]; [now apply IH |].
  constructor; [| now apply IH].
  intros Hin. apply Hnotin.
  apply in_map_iff in Hin. destruct Hin as [p [Hp Hin]].
  apply in_map_iff. exists p. split; [assumption |].
  unfold delete_row in Hin. apply filter_In in Hin. tauto.
Qed.

(** ** One request *)

Lemma every_exception_caught (e : pyexn) : caught_by e [Exception] = true.
Proof.
  destruct e as [c s]. destruct c; reflexivity.
Qed.

Lemma clean_db (d : db) : session d = [] -> mkDb (table d) [] = d.
Proof.
  destruct d as [t s]. cbn. now intros ->.
Qed.

Lemma insert_row_result rt random (n i : json) (p : decimal) (t t' : list Plant)
    (k : Z) :
  insert_row rt random n i p t = inr (t', k) ->
  exists row, t' = place_row row t /\ id row = k /\ next_rowid random t = Some k.
Proof.
  unfold insert_row.
  destruct (bind_price p) as [e | [fp |]]; try discriminate;
    destruct (bind_text rt n) as [e | [tn |]]; try discriminate;
    destruct (bind_text rt i) as [e | [ti |]]; try discriminate.
  destruct (next_rowid random t) as [k' |]; [| discriminate].
  intros H. injection H as <- <-.
  eexists. repeat split; reflexivity.
Qed.

(** With a clean session the body of the [try] either commits one new
    row, whose id the table did not hold, and then answers 201 with it
    unless the reading of the row raises, or its commit raises with the
    new object still pending. *)
Lemma create_body_result rt fl (n i : json) (p : decimal) (d : db) :
  session d = [] ->
  (exists row,
      create_body rt fl n i p d
      = (match query_fault fl with
         | None => inr (mkResponse 201 (to_dict row))
         | Some e => inl e
         end,
         mkDb (place_row row (table d)) [])
      /\ next_rowid (rowid_random fl) (table d) = Some (id row)
      /\ commit_fault fl = None
      /\ insert_row rt (rowid_random fl) n i p (table d)
         = inr (place_row row (table d), id row))
  \/ (exists e, create_body rt fl n i p d = (inl e, session_add (Added n i p) d)).
Proof.
  intros Hs. unfold create_body, session_commit.
  cbn [session_add session table]. rewrite Hs. cbn [app List.length flush].
  destruct (commit_fault fl) as [e |]; [right; eauto |].
  destruct (insert_row rt (rowid_random fl) n i p (table d)) as [e | [t' k]] eqn:Hi;
    [right; eauto |].
  destruct (insert_row_result _ _ _ _ _ _ _ _ Hi) as [row [-> [<- Hk]]].
  left. exists row. cbn [nth]. unfold session_refresh. cbn [table].
  rewrite (find_row_placed _ _ (next_rowid_fresh _ _ _ Hk)).
  destruct (query_fault fl); repeat split; trivial.
Qed.

Lemma create_plant_not_object rt fl (data : json) (d : db) :
  (forall m, data <> JObj m) ->
  exists o, create_plant rt fl data d = (o, d) /\ status_of o <> 201.
Proof.
  intros Hno. unfold create_plant.
  destruct (truthy data); cbn [negb];
    [| eexists; split; [reflexivity | discriminate]].
  destruct (all_in ["name"; "image"; "price"] data) as [e | []];
    try (eexists; split; [reflexivity | discriminate]).
  destruct data; try (eexists; split; [reflexivity | discriminate]).
  now elim (Hno members).
Qed.

(** A create ends in one of three ways: it commits one new row under an
    id the table did not hold and answers 201 with it; or it commits
    that row, the reading of it raises, and the answer has another
    status; or it leaves the database as it was and answers with
    another status. *)
Lemma create_plant_result rt fl (data : json) (d : db) :
  session d = [] ->
  (exists row,
      create_plant rt fl data d
      = (Returned (mkResponse 201 (to_dict row)), mkDb (place_row row (table d)) [])
      /\ next_rowid (rowid_random fl) (table d) = Some (id row)
      /\ query_fault fl = None)
  \/ (exists row o,
        create_plant rt fl data d = (o, mkDb (place_row row (table d)) [])
        /\ status_of o <> 201
        /\ next_rowid (rowid_random fl) (table d) = Some (id row)
        /\ query_fault fl <> None)
  \/ (exists o, create_plant rt fl data d = (o, d) /\ status_of o <> 201).
Proof.
  intros Hs.
  assert (Hobj : (exists m, data = JObj m) \/ (forall m, data <> JObj m)).
  { destruct data; try (right; discriminate). left; eauto. }
  destruct Hobj as [[m ->] | Hno];
    [| right; right; now apply create_plant_not_object].
  rewrite create_plant_object.
  destruct (dict_lookup "name" m) as [n |];
    [| right; right; eexists; split; [reflexivity | discriminate]].
  destruct (dict_lookup "image" m) as [i |];
    [| right; right; eexists; split; [reflexivity | discriminate]].
  destruct (dict_lookup "price" m) as [p |];
    [| right; right; eexists; split; [reflexivity | discriminate]].
  destruct (negb (truthy n) || negb (truthy i) || is_null p);
    [right; right; eexists; split; [reflexivity | discriminate] |].
  destruct (Decimal (py_str p)) as [e | price].
  { destruct (caught_by e [ValueError; TypeError]);
      right; right; eexists; (split; [reflexivity | discriminate]). }
  destruct (create_body_result rt fl n i price d Hs)
    as [[row [-> [Hk _]]] | [e ->]].
  - destruct (query_fault fl) as [e |] eqn:Hq.
    + right; left. exists row. unfold session_rollback. cbn [table].
      rewrite every_exception_caught.
      destruct (caught_by e [IntegrityError]);
        eexists;
        (split; [reflexivity | split; [discriminate | split; [assumption | discriminate]]]).
    + left. exists row. repeat split; assumption.
  - right; right. unfold session_rollback. cbn [session_add table].
    rewrite (clean_db d Hs), every_exception_caught.
    destruct (caught_by e [IntegrityError]);
      eexists; (split; [reflexivity | discriminate]).
Qed.

(** A delete either commits the removal of the row and answers 200, or
    leaves the database as it was and answers with another status. *)
Lemma delete_plant_result rt fl (k : Z) (d : db) :
  session d = [] ->
  (exists plant,
      find_row k (table d) = Some plant
      /\ delete_plant rt fl k d
         = (Returned (mkResponse 200 (JObj [("message", JStr (id_deleted k))])),
            mkDb (delete_row k (table d)) []))
  \/ (exists o, delete_plant rt fl k d = (o, d) /\ status_of o <> 200).
Proof.
  intros Hs. unfold delete_plant, query_get.
  destruct (query_fault fl) as [e |];
    [right; eexists; split; [reflexivity | discriminate] |].
  destruct (fits_int64 k);
    [| right; eexists; split; [reflexivity | discriminate]].
  destruct (find_row k (table d)) as [plant |] eqn:Hf;
    [| right; eexists; split; [reflexivity | discriminate]].
  destruct (find_row_found _ _ _ Hf) as [_ Hid].
  unfold session_commit. cbn [session_add session table]. rewrite Hs, Hid.
  cbn [app flush].
  destruct (commit_fault fl) as [e |].
  - right. rewrite every_exception_caught.
    unfold session_rollback, session_add. cbn [table]. rewrite (clean_db d Hs).
    eexists; split; [reflexivity | discriminate].
  - left. exists plant. split; reflexivity.
Qed.

Lemma get_plant_by_id_keeps fl (k : Z) (d : db) :
  snd (get_plant_by_id fl k d) = d.
Proof.
  unfold get_plant_by_id.
  destruct (query_get fl k d) as [e | [plant |]]; reflexivity.
Qed.

Lemma get_plants_keeps fl (d : db) :
  session d = [] -> snd (get_plants fl d) = d.
Proof.
  intros Hs. unfold get_plants.
  destruct (query_all fl d); [| reflexivity].
  cbn [snd]. unfold session_rollback. now apply clean_db.
Qed.

Lemma all_in_searched (data : json) :
  (forall e, py_in "name" data <> inl e) ->
  all_in ["name"; "image"; "price"] data
  = inr (has_key "name" data && has_key "image" data && has_key "price" data).
Proof.
  unfold has_key.
  destruct data; cbn [all_in py_in]; intros H;
    try (exfalso; eapply H; reflexivity);
    repeat match goal with
           | |- context [match ?c with _ => _ end] => destruct c
           end; reflexivity.
Qed.

(** C4, as the code has it: a body that lacks one of the keys name,
    image and price, or an object whose name or image is falsy, never
    changes the database, and GET /plants lists as many records as
    before.  It is answered 400 unless it is a number other than zero
    or [true]: [k in data] cannot search those, the TypeError leaves
    the view and the answer has status 500. *)
Theorem create_plant_missing_or_empty rt fl (data : json) (d : db) :
  has_key "name" data = false \/ has_key "image" data = false
  \/ has_key "price" data = false
  \/ (exists m, data = JObj m
                /\ (truthy (member "name" m) = false
                    \/ truthy (member "image" m) = false)) ->
  snd (create_plant rt fl data d) = d
  /\ listed (snd (create_plant rt fl data d)) = listed d
  /\ (truthy_number data = false ->
      exists r, fst (create_plant rt fl data d) = Returned r /\ status r = 400)
  /\ (truthy_number data = true ->
      exists e, fst (create_plant rt fl data d) = Raised e
                /\ exc_class e = TypeError
                /\ status_of (fst (create_plant rt fl data d)) = 500).
Proof.
  intros H.
  assert (Hcases :
    (exists r, create_plant rt fl data d = (Returned r, d) /\ status r = 400
               /\ truthy_number data = false)
    \/ (exists e, create_plant rt fl data d = (Raised e, d) /\ exc_class e = TypeError
                  /\ truthy_number data = true)).
  { destruct data as [| b | z | r | s | items | m].
    - left. eexists. repeat split.
    - destruct b; [right | left]; eexists; repeat split.
    - unfold create_plant, truthy_number. cbn [truthy].
      destruct (z =? 0); cbn [negb all_in py_in]; [left | right];
        eexists; repeat split.
    - unfold create_plant, truthy_number. cbn [truthy].
      destruct (String.eqb r "0.0" || String.eqb r "-0.0"); cbn [negb all_in py_in];
        [left | right]; eexists; repeat split.
    - left. unfold create_plant.
      destruct (truthy (JStr s)); cbn [negb]; [| eexists; repeat split].
      rewrite (all_in_searched (JStr s)) by discriminate.
      destruct H as [-> | [-> | [-> | [m [Hm _]]]]]; try discriminate Hm;
        rewrite ?andb_false_r; eexists; repeat split.
    - left. unfold create_plant.
      destruct (truthy (JArr items)); cbn [negb]; [| eexists; repeat split].
      rewrite (all_in_searched (JArr items)) by discriminate.
      destruct H as [-> | [-> | [-> | [m [Hm _]]]]]; try discriminate Hm;
        rewrite ?andb_false_r; eexists; repeat split.
    - left. rewrite create_plant_object.
      assert (Hm : dict_lookup "name" m = None \/ dict_lookup "image" m = None
                   \/ dict_lookup "price" m = None
                   \/ truthy (member "name" m) = false
                   \/ truthy (member "image" m) = false).
      { unfold has_key in H. cbn [py_in] in H.
        destruct H as [H | [H | [H | [m' [Hm [H | H]]]]]].
        - destruct (dict_lookup "name" m); [discriminate | tauto].
        - destruct (dict_lookup "image" m); [discriminate | tauto].
        - destruct (dict_lookup "price" m); [discriminate | tauto].
        - injection Hm as <-. tauto.
        - injection Hm as <-. tauto. }
      clear H. unfold member in Hm.
      destruct (dict_lookup "name" m) as [n|]; [| eexists; repeat split].
      destruct (dict_lookup "image" m) as [i|]; [| eexists; repeat split].
      destruct (dict_lookup "price" m) as [p|]; [| eexists; repeat split].
      destruct Hm as [Hm | [Hm | [Hm | [Hm | Hm]]]]; try discriminate;
        rewrite Hm; cbn [negb orb]; try rewrite orb_true_r; cbn [orb];
        eexists; repeat split. }
  destruct Hcases as [[r [-> [Hst Hn]]] | [e [-> [Hc Hn]]]]; cbn [fst snd];
    rewrite Hn; repeat split; try discriminate; intros _; eauto.
Qed.

Lemma create_plant_missing_or_empty_witness :
  snd (create_plant repr_text no_faults (JInt 5) empty_db) = empty_db
  /\ listed (snd (create_plant repr_text no_faults (JInt 5) empty_db)) = listed empty_db
  /\ (truthy_number (JInt 5) = false ->
      exists r, fst (create_plant repr_text no_faults (JInt 5) empty_db) = Returned r
                /\ status r = 400)
  /\ (truthy_number (JInt 5) = true ->
      exists e, fst (create_plant repr_text no_faults (JInt 5) empty_db) = Raised e
                /\ exc_class e = TypeError
                /\ status_of (fst (create_plant repr_text no_faults (JInt 5) empty_db))
                   = 500).
Proof.
  apply (create_plant_missing_or_empty repr_text no_faults (JInt 5) empty_db).
  left. reflexivity.
Defined.

(** C1, as the code has it: with the three keys present, name and image
    truthy and a price that is not None, a price text [Decimal] does not
    accept raises decimal.InvalidOperation, which [except (ValueError,
    TypeError)] does not catch: the exception leaves the view, the
    answer has status 500 and not 400, and the database is what it
    was. *)
Theorem create_plant_unparsable_price rt fl (m : list (string * json)) (d : db)
    (n i p : json) (e : pyexn) :
  dict_lookup "name" m = Some n ->
  dict_lookup "image" m = Some i ->
  dict_lookup "price" m = Some p ->
  truthy n = true -> truthy i = true -> is_null p = false ->
  Decimal (py_str p) = inl e ->
  create_plant rt fl (JObj m) d = (Raised e, d)
  /\ exc_class e = InvalidOperation
  /\ status_of (fst (create_plant rt fl (JObj m) d)) = 500.
Proof.
  intros Hn Hi Hp Tn Ti Np He.
  assert (Hc : exc_class e = InvalidOperation) by (eapply Decimal_raises; eassumption).
  assert (Hr : create_plant rt fl (JObj m) d = (Raised e, d)).
  { rewrite create_plant_object, Hn, Hi, Hp, Tn, Ti, Np, He.
    unfold caught_by. rewrite Hc. reflexivity. }
  rewrite Hr. repeat split; assumption || reflexivity.
Qed.

Lemma create_plant_unparsable_price_witness :
  create_plant repr_text no_faults (aloe (JStr "abc")) empty_db
  = (Raised (mkExn InvalidOperation "[<class 'decimal.ConversionSyntax'>]"), empty_db)
  /\ exc_class (mkExn InvalidOperation "[<class 'decimal.ConversionSyntax'>]")
     = InvalidOperation
  /\ status_of (fst (create_plant repr_text no_faults (aloe (JStr "abc")) empty_db)) = 500.
Proof.
  apply (create_plant_unparsable_price repr_text no_faults _ empty_db
           (JStr "Aloe") (JStr "./images/aloe.jpg") (JStr "abc"));
    reflexivity.
Defined.

(** C10: two bodies that agree on the members name, image and price get
    the same answer and leave the same database, whatever other members
    they carry. *)
Theorem create_plant_ignores_other_members rt fl (m1 m2 : list (string * json)) (d : db) :
  (forall k, In k ["name"; "image"; "price"] -> dict_lookup k m1 = dict_lookup k m2) ->
  create_plant rt fl (JObj m1) d = create_plant rt fl (JObj m2) d.
Proof.
  intros H. rewrite !create_plant_object.
  rewrite (H "name"), (H "image"), (H "price") by (simpl; tauto).
  reflexivity.
Qed.

Lemma create_plant_ignores_other_members_witness :
  create_plant repr_text no_faults
    (JObj [("name", JStr "Aloe"); ("image", JStr "./images/aloe.jpg");
           ("price", JStr "11.50")]) empty_db
  = create_plant repr_text no_faults
      (JObj [("id", JInt 77); ("name", JStr "Aloe"); ("colour", JStr "green");
             ("image", JStr "./images/aloe.jpg"); ("price", JStr "11.50");
             ("admin", JBool true)]) empty_db.
Proof.
  apply create_plant_ignores_other_members.
  intros k Hk. simpl in Hk.
  destruct Hk as [<- | [<- | [<- | []]]]; reflexivity.
Defined.

(** C6, as the code has it: for an id no row of the table has, GET and
    DELETE answer 404 and leave the database as it was, but [not_found]
    is handed a str and not an exception, so the body is the fixed text
    and never the message with the id. *)
Theorem missing_id_answer rt fl (k : Z) (d : db) :
  query_fault fl = None -> fits_int64 k = true -> find_row k (table d) = None ->
  get_plant_by_id fl k d
  = (Returned (mkResponse 404 (JObj [("error", JStr "Resource not found")])), d)
  /\ delete_plant rt fl k d
     = (Returned (mkResponse 404 (JObj [("error", JStr "Resource not found")])), d)
  /\ JObj [("error", JStr "Resource not found")]
     <> JObj [("error", JStr (id_not_found k))].
Proof.
  intros Hq Hk Hf. unfold get_plant_by_id, delete_plant, query_get.
  rewrite Hq, Hk, Hf. repeat split. discriminate.
Qed.

Lemma missing_id_answer_witness :
  get_plant_by_id no_faults 1 empty_db
  = (Returned (mkResponse 404 (JObj [("error", JStr "Resource not found")])), empty_db)
  /\ delete_plant repr_text no_faults 1 empty_db
     = (Returned (mkResponse 404 (JObj [("error", JStr "Resource not found")])), empty_db)
  /\ JObj [("error", JStr "Resource not found")]
     <> JObj [("error", JStr (id_not_found 1))].
Proof.
  apply (missing_id_answer repr_text no_faults 1 empty_db); reflexivity.
Defined.



(** ** Sequences of requests *)

Lemma listed_length (d : db) : listed d = Z.of_nat (List.length (table d)).
Proof.
  unfold listed, get_plants, query_all. cbn. now rewrite length_map.
Qed.

Lemma reads_back_create (fl : faults) (data : json) :
  reads_back (fl, CreatePlant data) = true <-> query_fault fl = None.
Proof.
  unfold reads_back. cbn [fst snd].
  destruct (query_fault fl); split; congruence.
Qed.

(** One served request keeps the primary key and the clean session;
    when its reading after the commit meets no exception, it moves the
    number of rows by one for a create answered 201 and for a delete
    answered 200, and not otherwise. *)
Lemma serve_step rt fl (req : request) (d d' : db) (o : outcome) :
  primary_key (table d) -> session d = [] ->
  serve rt fl req d = (o, d') ->
  primary_key (table d') /\ session d' = []
  /\ (reads_back (fl, req) = true ->
      Z.of_nat (List.length (table d'))
      = Z.of_nat (List.length (table d))
        + (if created req o then 1 else 0) - (if deleted req o then 1 else 0)).
Proof.
  intros Hpk Hs. unfold serve.
  destruct (handle rt fl req d) as [o1 d1] eqn:Hh.
  intros H. injection H as <- <-. unfold teardown. cbn [table session].
  destruct req as [| k | data | k]; cbn [handle created deleted] in *.
  - pose proof (get_plants_keeps fl d Hs) as Hk. rewrite Hh in Hk.
    cbn [snd] in Hk. subst d1. repeat split; [assumption | lia].
  - pose proof (get_plant_by_id_keeps fl k d) as Hk. rewrite Hh in Hk.
    cbn [snd] in Hk. subst d1. repeat split; [assumption | lia].
  - destruct (create_plant_result rt fl data d Hs)
      as [[row [Hc [Hk _]]] | [[row [o' [Hc [_ [Hk Hq]]]]] | [o' [Hc Hst]]]];
      rewrite Hc in Hh; injection Hh as <- <-.
    + cbn [table status_of status]. rewrite Z.eqb_refl.
      repeat split.
      * apply primary_key_placed; [assumption | now apply (next_rowid_fresh _ _ _ Hk)].
      * rewrite place_row_length. lia.
    + cbn [table]. repeat split.
      * apply primary_key_placed; [assumption | now apply (next_rowid_fresh _ _ _ Hk)].
      * intros Hr. apply reads_back_create in Hr. contradiction.
    + destruct (Z.eqb_spec (status_of o') 201); [contradiction |].
      repeat split; [assumption | lia].
  - destruct (delete_plant_result rt fl k d Hs)
      as [[plant [Hf Hc]] | [o' [Hc Hst]]];
      rewrite Hc in Hh; injection Hh as <- <-.
    + cbn [table status_of status]. rewrite Z.eqb_refl.
      repeat split.
      * now apply primary_key_delete.
      * rewrite (delete_row_length k (table d) plant Hpk Hf). lia.
    + destruct (Z.eqb_spec (status_of o') 200); [contradiction |].
      repeat split; [assumption | lia].
Qed.

Lemma run_step rt fl (req : request) (rest : list (faults * request)) (d : db) :
  run rt ((fl, req) :: rest) d
  = (fst (serve rt fl req d) :: fst (run rt rest (snd (serve rt fl req d))),
     snd (run rt rest (snd (serve rt fl req d)))).
Proof.
  cbn [run]. destruct (serve rt fl req d) as [o d1]. cbn [fst snd].
  destruct (run rt rest d1). reflexivity.
Qed.

Lemma run_keeps rt (reqs : list (faults * request)) (d : db) :
  primary_key (table d) -> session d = [] ->
  primary_key (table (snd (run rt reqs d))) /\ session (snd (run rt reqs d)) = [].
Proof.
  revert d. induction reqs as [| [fl req] rest IH]; intros d Hpk Hs.
  - cbn. tauto.
  - rewrite run_step. cbn [snd].
    destruct (serve rt fl req d) as [o d1] eqn:Hsv.
    destruct (serve_step rt fl req d d1 o Hpk Hs Hsv) as [Hpk1 [Hs1 _]].
    cbn [snd]. now apply IH.
Qed.




Lemma created_id_of_row (row : Plant) :
  created_id (Returned (mkResponse 201 (to_dict row))) = Some (id row).
Proof. reflexivity. Qed.

(** C9, as amended: along any sequence of requests from a table with its
    primary key, a create answered 201 carries an id that no row of the
    table had when the request came, and the table keeps its primary
    key: no two records of the table share an id. *)
Theorem created_id_is_free rt (reqs : list (faults * request)) fl (data : json)
    (d d2 : db) (o : outcome) :
  primary_key (table d) -> session d = [] ->
  serve rt fl (CreatePlant data) (snd (run rt reqs d)) = (o, d2) ->
  primary_key (table d2)
  /\ (status_of o = 201 ->
      exists row,
        o = Returned (mkResponse 201 (to_dict row))
        /\ find_row (id row) (table (snd (run rt reqs d))) = None
        /\ find_row (id row) (table d2) = Some row).
Proof.
  intros Hpk Hs Hsv.
  destruct (run_keeps rt reqs d Hpk Hs) as [Hpk1 Hs1].
  destruct (serve_step rt fl _ _ _ _ Hpk1 Hs1 Hsv) as [Hpk2 _].
  split; [assumption |].
  unfold serve in Hsv. cbn [handle] in Hsv.
  destruct (create_plant_result rt fl data _ Hs1)
    as [[row [Hc [Hk _]]] | [[row [o' [Hc [Hst _]]]] | [o' [Hc Hst]]]];
    rewrite Hc in Hsv; injection Hsv as <- <-.
  - intros _. exists row. pose proof (next_rowid_fresh _ _ _ Hk) as Hfree.
    repeat split; [assumption |].
    unfold teardown. cbn [table].
    now apply find_row_placed.
  - intros H. contradiction.
  - intros H. contradiction.
Qed.

Lemma created_id_is_free_witness :
  primary_key
    (table (snd (serve repr_text no_faults (CreatePlant (aloe (JStr "25.98")))
                   (snd (run repr_text sample_requests empty_db)))))
  /\ (status_of
        (fst (serve repr_text no_faults (CreatePlant (aloe (JStr "25.98")))
                (snd (run repr_text sample_requests empty_db)))) = 201 ->
      exists row,
        fst (serve repr_text no_faults (CreatePlant (aloe (JStr "25.98")))
               (snd (run repr_text sample_requests empty_db)))
        = Returned (mkResponse 201 (to_dict row))
        /\ find_row (id row) (table (snd (run repr_text sample_requests empty_db))) = None
        /\ find_row (id row)
             (table (snd (serve repr_text no_faults (CreatePlant (aloe (JStr "25.98")))
                            (snd (run repr_text sample_requests empty_db))))) = Some row).
Proof.
  apply (created_id_is_free repr_text sample_requests no_faults
           (aloe (JStr "25.98")) empty_db);
    [constructor | reflexivity | apply surjective_pairing].
Defined.

(** C9 as stated fails: the id of a deleted record is given again.  On
    an empty table a create is given id 1; after DELETE /plants/1 the
    next create is given id 1 once more. *)
Lemma id_given_again :
  fst (run repr_text
         [(no_faults, CreatePlant (aloe (JStr "11.50")));
          (no_faults, DeletePlant 1);
          (no_faults, CreatePlant (aloe (JStr "25.98")))] empty_db)
  = [Returned
       (mkResponse 201
          (JObj [("id", JInt 1); ("image", JStr "./images/aloe.jpg");
                 ("name", JStr "Aloe"); ("price", JStr "11.50")]));
     Returned
       (mkResponse 200 (JObj [("message", JStr "Plant with id 1 successfully deleted")]));
     Returned
       (mkResponse 201
          (JObj [("id", JInt 1); ("image", JStr "./images/aloe.jpg");
                 ("name", JStr "Aloe"); ("price", JStr "25.98")]))].
Proof. vm_compute. reflexivity. Qed.

(** At the last 64-bit id the insert searches for an unused id.  With
    a record of id 2^63-1 in the table, a create whose search draws 6
    is given the id 7; a second one whose search ends on 7 again finds
    it used and is answered 500, with nothing changed. *)
Lemma create_at_the_last_rowid :
  map created_id
    (fst (run repr_text
            [(mkFaults None None 6, CreatePlant (aloe (JStr "11.50")));
             (mkFaults None None 6, CreatePlant (aloe (JStr "25.98")));
             (no_faults, GetPlant 7)]
            (mkDb [mkPlant MAX_ROWID "Fern" "./images/fern.jpg" (FFinite false 7 0)] [])))
  = [Some 7; None; None]
  /\ map status_of
       (fst (run repr_text
               [(mkFaults None None 6, CreatePlant (aloe (JStr "11.50")));
                (mkFaults None None 6, CreatePlant (aloe (JStr "25.98")));
                (no_faults, GetPlant 7)]
               (mkDb [mkPlant MAX_ROWID "Fern" "./images/fern.jpg" (FFinite false 7 0)]
                  [])))
     = [201; 500; 200]
  /\ map id
       (table
          (snd (run repr_text
                  [(mkFaults None None 6, CreatePlant (aloe (JStr "11.50")));
                   (mkFaults None None 6, CreatePlant (aloe (JStr "25.98")));
                   (no_faults, GetPlant 7)]
                  (mkDb [mkPlant MAX_ROWID "Fern" "./images/fern.jpg" (FFinite false 7 0)]
                     []))))
     = [7; MAX_ROWID].
Proof. vm_compute. repeat split. Qed.






(** ** A valid payload *)

Lemma float_of_ratio_number (neg : bool) (a b : Z) : float_of_ratio neg a b <> FNaN.
Proof.
  unfold float_of_ratio.
  repeat match goal with
         | |- context [if ?c then _ else _] => destruct c
         | |- context [let (_, _) := ?p in _] => destruct p
         end; discriminate.
Qed.

(** A price that is a number or an infinity is kept. *)
Lemma bind_price_number (price : decimal) :
  is_nan price = false -> exists f, bind_price price = inr (Some f).
Proof.
  destruct price as [neg c e | neg | neg sg pl]; [| | discriminate]; intros _.
  - unfold bind_price, to_float.
    destruct (c =? 0); [eauto |].
    destruct (0 <=? e).
    + pose proof (float_of_ratio_number neg (c * 10 ^ e) 1) as H.
      destruct (float_of_ratio neg (c * 10 ^ e) 1); [eauto | eauto | contradiction].
    + pose proof (float_of_ratio_number neg c (10 ^ (- e))) as H.
      destruct (float_of_ratio neg c (10 ^ (- e))); [eauto | eauto | contradiction].
  - cbn. eauto.
Qed.

Lemma max_id_floor (t : list Plant) : - 2 ^ 63 <= max_id t.
Proof.
  induction t as [| q t IH]; [cbn; lia |].
  change (max_id (q :: t)) with (Z.max (id q) (max_id t)). lia.
Qed.

Lemma next_rowid_below (random : Z) (t : list Plant) :
  max_id t < MAX_ROWID ->
  exists k, next_rowid random t = Some k /\ fits_int64 k = true /\ max_id t < k.
Proof.
  intros Hlt. destruct t as [| q t]; [exists 1; repeat split |].
  exists (max_id (q :: t) + 1). unfold next_rowid.
  destruct (Z.ltb_spec (max_id (q :: t)) MAX_ROWID); [| lia].
  split; [reflexivity |].
  pose proof (max_id_floor (q :: t)) as Hfl.
  split; [| lia].
  unfold fits_int64, MAX_ROWID in *.
  change (2 ^ 63) with 9223372036854775808 in *.
  apply andb_true_intro. split; apply Z.leb_le; lia.
Qed.

Lemma parsed_price_not_null (p : json) (price : decimal) :
  Decimal (py_str p) = inr price -> is_null p = false.
Proof.
  destruct p; try reflexivity. vm_compute. discriminate.
Qed.

Lemma truthy_text (s : string) : s <> "" -> truthy (JStr s) = true.
Proof.
  intros H. cbn. destruct (String.eqb_spec s ""); [contradiction | reflexivity].
Qed.

(** C3, as amended: with no fault of the store and a table whose largest
    id is below the last 64-bit integer, a body with a non-empty text
    name, a non-empty text image and a price that [Decimal] reads as a
    finite number is answered 201 with the record as committed, under an
    id that no row of the table had when the request came; GET with that
    id then answers 200 with the same body. *)
Theorem create_plant_valid rt (m : list (string * json)) (d : db)
    (n i : string) (p : json) (price : decimal) :
  session d = [] -> max_id (table d) < MAX_ROWID ->
  dict_lookup "name" m = Some (JStr n) ->
  dict_lookup "image" m = Some (JStr i) ->
  dict_lookup "price" m = Some p ->
  n <> "" -> i <> "" ->
  Decimal (py_str p) = inr price -> is_finite price = true ->
  exists row,
    create_plant rt no_faults (JObj m) d
    = (Returned (mkResponse 201 (to_dict row)), mkDb (table d ++ [row]) [])
    /\ name row = n /\ image row = i
    /\ find_row (id row) (table d) = None
    /\ get_plant_by_id no_faults (id row) (mkDb (table d ++ [row]) [])
       = (Returned (mkResponse 200 (to_dict row)), mkDb (table d ++ [row]) []).
Proof.
  intros Hs Hmax Hn Hi Hp Nn Ni Hd Hfin.
  assert (Hnan : is_nan price = false) by (destruct price; trivial; discriminate).
  destruct (bind_price_number price Hnan) as [f Hf].
  destruct (next_rowid_below 0 (table d) Hmax) as [k [Hk [Hfit Habove]]].
  pose proof (next_rowid_fresh _ _ _ Hk) as Hfree.
  exists (mkPlant k n i f). cbn [id name image].
  assert (Hlast : find_row k (table d ++ [mkPlant k n i f]) = Some (mkPlant k n i f)).
  { rewrite (find_row_last _ _ _ Hfree). cbn [id]. now rewrite Z.eqb_refl. }
  repeat split; trivial.
  - rewrite create_plant_object, Hn, Hi, Hp.
    rewrite (truthy_text n Nn), (truthy_text i Ni), (parsed_price_not_null p price Hd).
    cbn [negb orb]. rewrite Hd.
    unfold create_body, session_commit, session_refresh.
    cbn [session_add session table commit_fault query_fault rowid_random no_faults].
    rewrite Hs.
    cbn [app flush List.length]. unfold insert_row. rewrite Hf.
    cbn [bind_text]. rewrite Hk, (place_row_last (mkPlant k n i f) (table d) Habove).
    cbn [nth table]. rewrite Hlast. reflexivity.
  - unfold get_plant_by_id, query_get. cbn [query_fault no_faults table].
    rewrite Hfit, Hlast. reflexivity.
Qed.

Lemma create_plant_valid_witness :
  exists row,
    create_plant repr_text no_faults (aloe (JFloat "11.5")) empty_db
    = (Returned (mkResponse 201 (to_dict row)), mkDb (table empty_db ++ [row]) [])
    /\ name row = "Aloe" /\ image row = "./images/aloe.jpg"
    /\ find_row (id row) (table empty_db) = None
    /\ get_plant_by_id no_faults (id row) (mkDb (table empty_db ++ [row]) [])
       = (Returned (mkResponse 200 (to_dict row)), mkDb (table empty_db ++ [row]) []).
Proof.
  apply (create_plant_valid repr_text _ empty_db "Aloe" "./images/aloe.jpg"
           (JFloat "11.5") (DFinite false 115 (-1)));
    try reflexivity; discriminate.
Defined.

(** C3 as stated fails twice.  A price of NaN is read by [Decimal], yet
    SQLite keeps a NaN as NULL, the NOT NULL column refuses it and the
    answer is 400.  And the id of a created record may have been given
    before: after DELETE /plants/1 on a table whose only record it was,
    the next create is given id 1 again. *)
Lemma valid_payload_refused_and_id_reused :
  Decimal (py_str (JStr "NaN")) = inr (DNaN false false 0)
  /\ create_plant repr_text no_faults (aloe (JStr "NaN")) empty_db
     = (Returned (mkResponse 400 (JObj [("error", JStr "Bad Request")])), empty_db)
  /\ map created_id
       (fst (run repr_text
               [(no_faults, CreatePlant (aloe (JStr "11.50")));
                (no_faults, DeletePlant 1);
                (no_faults, CreatePlant (aloe (JStr "11.50")))] empty_db))
     = [Some 1; None; Some 1].
Proof. vm_compute. repeat split. Qed.

(** ** The text of a price *)

Lemma list_of_append (a b : string) :
  list_ascii_of_string (String.append a b)
  = list_ascii_of_string a ++ list_ascii_of_string b.
Proof.
  induction a as [| c a IH]; cbn; [reflexivity | now rewrite IH].
Qed.

Lemma uint_digits (u : Decimal.uint) :
  Forall (fun c => is_digit c = true)
    (list_ascii_of_string (NilEmpty.string_of_uint u)).
Proof.
  induction u; cbn; constructor; trivial.
Qed.

Lemma digits_of_digits (c : Z) :
  0 <= c ->
  Forall (fun a => is_digit a = true) (digits_of c) /\ digits_of c <> [].
Proof.
  intros Hc. unfold digits_of, string_of_Z, NilZero.string_of_int.
  destruct c as [| q | q]; [cbn | | lia].
  - split; [repeat constructor | discriminate].
  - cbn [Z.to_int]. unfold NilZero.string_of_uint.
    pose proof (uint_digits (Pos.to_uint q)) as Hd.
    destruct (Pos.to_uint q) eqn:E; try (split; [exact Hd | discriminate]).
    split; [repeat constructor | discriminate].
Qed.

Lemma span_digits_all (ds : list ascii) :
  Forall (fun a => is_digit a = true) ds -> span_digits ds = (ds, []).
Proof.
  induction 1 as [| a ds Ha _ IH]; cbn [span_digits]; [reflexivity |].
  now rewrite Ha, IH.
Qed.

Lemma span_digits_stop (ds : list ascii) (c : ascii) (rest : list ascii) :
  Forall (fun a => is_digit a = true) ds -> is_digit c = false ->
  span_digits (ds ++ c :: rest) = (ds, c :: rest).
Proof.
  intros Hds Hc. induction Hds as [| a ds Ha _ IH]; cbn [span_digits app].
  - now rewrite Hc.
  - now rewrite Ha, IH.
Qed.

Lemma zeros_digits (n : Z) : Forall (fun a => is_digit a = true) (zeros n).
Proof.
  unfold zeros. induction (Z.to_nat n); cbn; constructor; trivial.
Qed.

Lemma digit_not_minus (a : ascii) : is_digit a = true -> (code a =? 45) = false.
Proof.
  unfold is_digit. intros H. apply andb_prop in H. destruct H as [H _].
  apply Z.leb_le in H. apply Z.eqb_neq. lia.
Qed.

(** A text of digits, a point and [k] digits, with or without a minus
    sign, has [k] fractional digits. *)
Lemma fraction_digits_plain (neg : bool) (ip fp : list ascii) :
  Forall (fun a => is_digit a = true) ip -> ip <> [] ->
  Forall (fun a => is_digit a = true) fp ->
  fraction_digits
    (String.append (sign_text neg)
       (String.append (string_of_list_ascii (ip ++ "."%char :: fp)) ""))
  = Some (List.length fp).
Proof.
  intros Hip Hne Hfp. unfold fraction_digits.
  rewrite !list_of_append, list_ascii_of_string_of_list_ascii.
  cbn [list_ascii_of_string]. rewrite app_nil_r.
  assert (Hbody :
    match span_digits (ip ++ "."%char :: fp) with
    | (_ :: _, c :: rest) =>
        if code c =? 46
        then match span_digits rest with
             | (ds, []) => Some (List.length ds)
             | _ => None
             end
        else None
    | _ => None
    end = Some (List.length fp)).
  { rewrite (span_digits_stop ip "."%char fp Hip eq_refl).
    destruct ip as [| a ip]; [contradiction |].
    change (code "."%char =? 46) with true. cbn iota.
    now rewrite (span_digits_all fp Hfp). }
  destruct neg; cbn [sign_text list_ascii_of_string app].
  - change (code "-"%char =? 45) with true. cbn iota. exact Hbody.
  - destruct ip as [| a ip]; [contradiction |].
    cbn [app]. inversion Hip as [| ? ? Ha _]; subst.
    rewrite (digit_not_minus a Ha). exact Hbody.
Qed.

(** The text of a Decimal with exponent -2 has two fractional digits. *)
Lemma decimal_str_scale_2 (neg : bool) (c : Z) :
  0 <= c -> fraction_digits (decimal_str (DFinite neg c (-2))) = Some 2%nat.
Proof.
  intros Hc. destruct (digits_of_digits c Hc) as [Hd Hne].
  unfold decimal_str.
  set (int := digits_of c) in *.
  assert (Hlen : 1 <= Z.of_nat (List.length int)).
  { destruct int; [contradiction | cbn [List.length]; lia]. }
  set (len := Z.of_nat (List.length int)) in *.
  change (-2 <=? 0) with true. cbn [andb].
  destruct (Z.ltb_spec (-6) (-2 + len)) as [_ | Hbad]; [| lia].
  replace (-2 + len - (-2 + len)) with 0 by lia. cbn [Z.eqb].
  destruct (Z.leb_spec (-2 + len) 0) as [Hsmall | Hbig].
  - change (["0"%char] ++ "."%char :: zeros (- (-2 + len)) ++ int)
      with (["0"%char] ++ "."%char :: (zeros (- (-2 + len)) ++ int)).
    rewrite fraction_digits_plain.
    + rewrite length_app. unfold zeros. rewrite repeat_length.
      f_equal. subst len. lia.
    + repeat constructor.
    + discriminate.
    + apply Forall_app. split; [apply zeros_digits | assumption].
  - destruct (Z.leb_spec len (-2 + len)) as [Hno | _]; [lia |].
    rewrite fraction_digits_plain.
    + rewrite length_skipn. f_equal. subst len. lia.
    + rewrite <- (firstn_skipn (Z.to_nat (-2 + len)) int) in Hd.
      apply Forall_app in Hd. tauto.
    + intros Hnil. apply (f_equal (@List.length ascii)) in Hnil.
      rewrite length_firstn in Hnil. cbn [List.length] in Hnil. subst len. lia.
    + rewrite <- (firstn_skipn (Z.to_nat (-2 + len)) int) in Hd.
      apply Forall_app in Hd. tauto.
Qed.

Lemma round_half_even_nonneg (n d : Z) : 0 <= n -> 0 < d -> 0 <= round_half_even n d.
Proof.
  intros Hn Hd. unfold round_half_even.
  pose proof (Z.div_pos n d Hn Hd).
  repeat match goal with |- context [if ?c then _ else _] => destruct c end; lia.
Qed.

(** The price of a record whose stored number is finite is written with
    exactly two fractional digits. *)
Lemma finite_price_two_digits (neg : bool) (m e : Z) :
  0 <= m ->
  fraction_digits (decimal_str (to_decimal (FFinite neg m e))) = Some 2%nat.
Proof.
  intros Hm. cbn [to_decimal]. apply decimal_str_scale_2.
  destruct (0 <=? e) eqn:He.
  - apply Z.leb_le in He.
    pose proof (Z.pow_nonneg 2 e ltac:(lia)). nia.
  - apply round_half_even_nonneg; [lia |].
    apply Z.pow_pos_nonneg; [lia |]. apply Z.leb_gt in He. lia.
Qed.

(** A price of 11.5, sent as a number or as a text, is answered as
    "11.50" by the create and by the reads that follow. *)
Lemma price_11_5 :
  map price_of
    (fst (run repr_text
            [(no_faults, CreatePlant (aloe (JFloat "11.5")));
             (no_faults, GetPlant 1);
             (no_faults, CreatePlant (aloe (JStr "11.5")));
             (no_faults, GetPlant 2);
             (no_faults, GetPlant 1)] empty_db))
  = [Some (JStr "11.50"); Some (JStr "11.50"); Some (JStr "11.50");
     Some (JStr "11.50"); Some (JStr "11.50")].
Proof. vm_compute. reflexivity. Qed.

(** The stored number is the binary float nearest to the price: 0.155
    lies just below the middle of 0.15 and 0.16 as a float, and is
    answered as "0.15". *)
Lemma price_through_float :
  map price_of
    (fst (run repr_text
            [(no_faults, CreatePlant (aloe (JStr "0.155")));
             (no_faults, GetPlant 1)] empty_db))
  = [Some (JStr "0.15"); Some (JStr "0.15")].
Proof. vm_compute. reflexivity. Qed.

(** C2, as the code has it: [Decimal] reads the text Infinity, the
    handler takes it for a valid price, SQLite keeps the infinite float,
    and the create and every read answer the price as "Infinity", a
    text without fractional digits. *)
Theorem infinite_price_answer :
  map status_of
    (fst (run repr_text
            [(no_faults, CreatePlant (aloe (JStr "Infinity")));
             (no_faults, GetPlant 1)] empty_db)) = [201; 200]
  /\ map price_of
       (fst (run repr_text
               [(no_faults, CreatePlant (aloe (JStr "Infinity")));
                (no_faults, GetPlant 1)] empty_db))
     = [Some (JStr "Infinity"); Some (JStr "Infinity")]
  /\ fraction_digits "Infinity" = None.
Proof. vm_compute. repeat split. Qed.

(** * Further properties of the views *)

(** ** What a view can answer *)

(** Whatever the body, the faults and the database, a create ends in
    one of four ways: an exception leaves the view, or it answers 201
    with a record, or it answers through [bad_request] or through
    [internal_server_error], which it hands a str each time. *)
Lemma create_plant_answers rt fl (data : json) (d : db) :
  (exists e, fst (create_plant rt fl data d) = Raised e)
  \/ (exists row, fst (create_plant rt fl data d) = Returned (mkResponse 201 (to_dict row)))
  \/ fst (create_plant rt fl data d)
     = Returned (mkResponse 400 (JObj [("error", JStr "Bad Request")]))
  \/ fst (create_plant rt fl data d)
     = Returned (mkResponse 500 (JObj [("error", JStr "Internal Server Error")])).
Proof.
  unfold create_plant.
  destruct (negb (truthy data)); [right; right; left; reflexivity |].
  destruct (all_in ["name"; "image"; "price"] data) as [e | []];
    [left; eexists; reflexivity | | right; right; left; reflexivity].
  destruct (py_get "name" data) as [e1 | n];
    destruct (py_get "image" data) as [e2 | i];
    destruct (py_get "price" data) as [e3 | p];
    try (left; eexists; reflexivity).
  destruct (negb (truthy n) || negb (truthy i)
            || match p with JNull => true | _ => false end);
    [right; right; left; reflexivity |].
  destruct (Decimal (py_str p)) as [e | price].
  { destruct (caught_by e [ValueError; TypeError]);
      [right; right; left; reflexivity | left; eexists; reflexivity]. }
  unfold create_body.
  destruct (session_commit rt fl (session_add (Added n i price) d))
    as [e | [d2 keys]].
  - destruct (caught_by e [IntegrityError]); [right; right; left; reflexivity |].
    destruct (caught_by e [Exception]);
      [right; right; right; reflexivity | left; eexists; reflexivity].
  - destruct (nth (List.length (session d)) keys None) as [k |].
    + destruct (session_refresh fl k d2) as [e | row];
        [| right; left; eexists; reflexivity].
      destruct (caught_by e [IntegrityError]); [right; right; left; reflexivity |].
      rewrite every_exception_caught. right; right; right. reflexivity.
    + cbn. right; right; right. reflexivity.
Qed.

Lemma delete_plant_answers rt fl (k : Z) (d : db) :
  (exists e, fst (delete_plant rt fl k d) = Raised e)
  \/ fst (delete_plant rt fl k d)
     = Returned (mkResponse 200 (JObj [("message", JStr (id_deleted k))]))
  \/ fst (delete_plant rt fl k d)
     = Returned (mkResponse 404 (JObj [("error", JStr "Resource not found")]))
  \/ fst (delete_plant rt fl k d)
     = Returned (mkResponse 500 (JObj [("error", JStr "Internal Server Error")])).
Proof.
  unfold delete_plant.
  destruct (query_get fl k d) as [e | [plant |]];
    [left; eexists; reflexivity | | right; right; left; reflexivity].
  destruct (session_commit rt fl (session_add (Deleted (id plant)) d))
    as [e | [d2 keys]]; [| right; left; reflexivity].
  rewrite every_exception_caught. right; right; right. reflexivity.
Qed.

(** X1: whenever a view returns a response with status 400, 404 or 500,
    the body is the fixed text of the error handler: the views hand the
    handlers a str, and the handlers keep the text of an exception
    only. *)
Theorem error_bodies_are_fixed rt fl (req : request) (d d' : db) (r : response) :
  handle rt fl req d = (Returned r, d') ->
  (status r = 400 -> body r = JObj [("error", JStr "Bad Request")])
  /\ (status r = 404 -> body r = JObj [("error", JStr "Resource not found")])
  /\ (status r = 500 -> body r = JObj [("error", JStr "Internal Server Error")]).
Proof.
  intros H. apply (f_equal fst) in H. cbn [fst] in H.
  destruct req as [| k | data | k]; cbn [handle] in H.
  - unfold get_plants in H. destruct (query_all fl d); cbn in H;
      injection H as <-; cbn; repeat split; intros; trivial; discriminate.
  - unfold get_plant_by_id in H.
    destruct (query_get fl k d) as [e | [plant |]]; cbn in H;
      try discriminate; injection H as <-; cbn;
      repeat split; intros; trivial; discriminate.
  - destruct (create_plant_answers rt fl data d)
      as [[e He] | [[row He] | [He | He]]];
      rewrite He in H; try discriminate; injection H as <-; cbn;
      repeat split; intros; trivial; discriminate.
  - destruct (delete_plant_answers rt fl k d)
      as [[e He] | [He | [He | He]]];
      rewrite He in H; try discriminate; injection H as <-; cbn;
      repeat split; intros; trivial; discriminate.
Qed.

Lemma error_bodies_are_fixed_witness :
  (status (mkResponse 400 (JObj [("error", JStr "Bad Request")])) = 400 ->
   body (mkResponse 400 (JObj [("error", JStr "Bad Request")]))
   = JObj [("error", JStr "Bad Request")])
  /\ (status (mkResponse 400 (JObj [("error", JStr "Bad Request")])) = 404 ->
      body (mkResponse 400 (JObj [("error", JStr "Bad Request")]))
      = JObj [("error", JStr "Resource not found")])
  /\ (status (mkResponse 400 (JObj [("error", JStr "Bad Request")])) = 500 ->
      body (mkResponse 400 (JObj [("error", JStr "Bad Request")]))
      = JObj [("error", JStr "Internal Server Error")]).
Proof.
  apply (error_bodies_are_fixed repr_text no_faults
           (CreatePlant (JObj [("name", JStr "Aloe")])) empty_db empty_db).
  reflexivity.
Defined.

(** X2: each route answers with one of its own statuses only: the list
    with 200 or 500, the read and the delete with 200, 404 or 500, the
    create with 201, 400 or 500. *)
Theorem statuses_of_routes rt fl (req : request) (d : db) :
  match req with
  | GetPlants =>
      status_of (fst (handle rt fl req d)) = 200
      \/ status_of (fst (handle rt fl req d)) = 500
  | GetPlant _ | DeletePlant _ =>
      status_of (fst (handle rt fl req d)) = 200
      \/ status_of (fst (handle rt fl req d)) = 404
      \/ status_of (fst (handle rt fl req d)) = 500
  | CreatePlant _ =>
      status_of (fst (handle rt fl req d)) = 201
      \/ status_of (fst (handle rt fl req d)) = 400
      \/ status_of (fst (handle rt fl req d)) = 500
  end.
Proof.
  destruct req as [| k | data | k]; cbn [handle].
  - unfold get_plants. destruct (query_all fl d); cbn; tauto.
  - unfold get_plant_by_id.
    destruct (query_get fl k d) as [e | [plant |]]; cbn; tauto.
  - destruct (create_plant_answers rt fl data d)
      as [[e He] | [[row He] | [He | He]]]; rewrite He; cbn; tauto.
  - destruct (delete_plant_answers rt fl k d)
      as [[e He] | [He | [He | He]]]; rewrite He; cbn; tauto.
Qed.

(** X3: the two reading views never change the table, whatever faults
    they meet and whatever the session holds; from a clean session they
    leave the database as it was. *)
Theorem reads_keep_the_table rt fl (req : request) (d : db) :
  mutating req = false ->
  table (snd (handle rt fl req d)) = table d
  /\ (session d = [] -> snd (handle rt fl req d) = d).
Proof.
  intros Hm. destruct req as [| k | data | k]; try discriminate; cbn [handle].
  - unfold get_plants. destruct (query_all fl d); cbn [snd].
    + split; [reflexivity |]. unfold session_rollback. apply clean_db.
    + split; trivial.
  - unfold get_plant_by_id.
    destruct (query_get fl k d) as [e | [plant |]]; cbn [snd]; split; trivial.
Qed.

Lemma reads_keep_the_table_witness :
  table (snd (handle repr_text
                (mkFaults (Some (mkExn OperationalError "no such table: plants")) None 0)
                GetPlants (snd (run repr_text sample_requests empty_db))))
  = table (snd (run repr_text sample_requests empty_db))
  /\ (session (snd (run repr_text sample_requests empty_db)) = [] ->
      snd (handle repr_text
             (mkFaults (Some (mkExn OperationalError "no such table: plants")) None 0)
             GetPlants (snd (run repr_text sample_requests empty_db)))
      = snd (run repr_text sample_requests empty_db)).
Proof.
  apply (reads_keep_the_table repr_text
           (mkFaults (Some (mkExn OperationalError "no such table: plants")) None 0)
           GetPlants (snd (run repr_text sample_requests empty_db))).
  reflexivity.
Defined.

Lemma find_row_of_member (t : list Plant) (p : Plant) :
  primary_key t -> In p t -> find_row (id p) t = Some p.
Proof.
  unfold primary_key.
  induction t as [| q t IH]; intros Hnd Hin; [contradiction |].
  cbn [map] in Hnd. inversion Hnd as [| ? ? Hnotin Hnd']; subst.
  cbn [find_row]. destruct Hin as [-> | Hin]; [now rewrite Z.eqb_refl |].
  destruct (Z.eqb_spec (id q) (id p)) as [E | _]; [| now apply IH].
  exfalso. apply Hnotin. rewrite E. now apply in_map.
Qed.

(** X4: under the primary key, every record of the table is among the
    records GET /plants lists, and GET /plants/<id> with its id answers
    200 with that same record. *)
Theorem listed_records_are_served (d : db) (p : Plant) :
  primary_key (table d) -> In p (table d) -> fits_int64 (id p) = true ->
  get_plant_by_id no_faults (id p) d = (Returned (mkResponse 200 (to_dict p)), d)
  /\ exists items,
       fst (get_plants no_faults d) = Returned (mkResponse 200 (JArr items))
       /\ In (to_dict p) items
       /\ List.length items = List.length (table d).
Proof.
  intros Hpk Hin Hfit. split.
  - unfold get_plant_by_id, query_get. cbn [query_fault no_faults].
    now rewrite Hfit, (find_row_of_member _ _ Hpk Hin).
  - eexists. split; [reflexivity |]. split; [now apply in_map | apply length_map].
Qed.

Lemma listed_records_are_served_witness :
  get_plant_by_id no_faults
    (id (mkPlant 2 "ZZ Plant" "./images/zz-plant.jpg" (FFinite false 7 0)))
    (mkDb [mkPlant 1 "Aloe" "./images/aloe.jpg" (FFinite false 7 0);
           mkPlant 2 "ZZ Plant" "./images/zz-plant.jpg" (FFinite false 7 0)] [])
  = (Returned
       (mkResponse 200
          (to_dict (mkPlant 2 "ZZ Plant" "./images/zz-plant.jpg" (FFinite false 7 0)))),
     mkDb [mkPlant 1 "Aloe" "./images/aloe.jpg" (FFinite false 7 0);
           mkPlant 2 "ZZ Plant" "./images/zz-plant.jpg" (FFinite false 7 0)] [])
  /\ exists items,
       fst (get_plants no_faults
              (mkDb [mkPlant 1 "Aloe" "./images/aloe.jpg" (FFinite false 7 0);
                     mkPlant 2 "ZZ Plant" "./images/zz-plant.jpg" (FFinite false 7 0)] []))
       = Returned (mkResponse 200 (JArr items))
       /\ In (to_dict (mkPlant 2 "ZZ Plant" "./images/zz-plant.jpg" (FFinite false 7 0)))
            items
       /\ List.length items
          = List.length
              (table (mkDb [mkPlant 1 "Aloe" "./images/aloe.jpg" (FFinite false 7 0);
                            mkPlant 2 "ZZ Plant" "./images/zz-plant.jpg"
                              (FFinite false 7 0)] [])).
Proof.
  apply (listed_records_are_served
           (mkDb [mkPlant 1 "Aloe" "./images/aloe.jpg" (FFinite false 7 0);
                  mkPlant 2 "ZZ Plant" "./images/zz-plant.jpg" (FFinite false 7 0)] [])
           (mkPlant 2 "ZZ Plant" "./images/zz-plant.jpg" (FFinite false 7 0))).
  - repeat constructor; cbn; intuition discriminate.
  - cbn. tauto.
  - reflexivity.
Defined.

(** ** A create that reaches the commit *)

Lemma create_body_raises rt fl (n i : json) (price : decimal) (d : db) (e : pyexn) :
  session d = [] ->
  commit_fault fl = Some e
  \/ (commit_fault fl = None
      /\ insert_row rt (rowid_random fl) n i price (table d) = inl e) ->
  create_body rt fl n i price d = (inl e, session_add (Added n i price) d).
Proof.
  intros Hs H. unfold create_body, session_commit.
  cbn [session_add session table]. rewrite Hs. cbn [app flush].
  destruct H as [-> | [-> ->]]; reflexivity.
Qed.

(** A create whose commit raises answers 400 for an IntegrityError and
    500 for any other exception, after the rollback. *)
Lemma create_plant_commit_raises rt fl (m : list (string * json)) (d : db)
    (n i p : json) (price : decimal) (e : pyexn) :
  session d = [] ->
  dict_lookup "name" m = Some n ->
  dict_lookup "image" m = Some i ->
  dict_lookup "price" m = Some p ->
  truthy n = true -> truthy i = true ->
  Decimal (py_str p) = inr price ->
  commit_fault fl = Some e
  \/ (commit_fault fl = None
      /\ insert_row rt (rowid_random fl) n i price (table d) = inl e) ->
  create_plant rt fl (JObj m) d
  = (Returned
       (if issubclass (exc_class e) IntegrityError
        then mkResponse 400 (JObj [("error", JStr "Bad Request")])
        else mkResponse 500 (JObj [("error", JStr "Internal Server Error")])),
     d).
Proof.
  intros Hs Hn Hi Hp Tn Ti Hd He.
  rewrite create_plant_object, Hn, Hi, Hp, Tn, Ti.
  rewrite (parsed_price_not_null p price Hd). cbn [negb orb]. rewrite Hd.
  rewrite (create_body_raises rt fl n i price d e Hs He).
  unfold session_rollback, session_add. cbn [table]. rewrite (clean_db d Hs).
  rewrite every_exception_caught. unfold caught_by. cbn [existsb].
  rewrite orb_false_r. destruct (issubclass (exc_class e) IntegrityError); reflexivity.
Qed.

(** X5: with the three keys present, a price of null is answered 400
    and the database is left as it was, whatever name and image are. *)
Theorem create_plant_null_price rt fl (m : list (string * json)) (d : db) (n i : json) :
  dict_lookup "name" m = Some n ->
  dict_lookup "image" m = Some i ->
  dict_lookup "price" m = Some JNull ->
  create_plant rt fl (JObj m) d
  = (Returned (mkResponse 400 (JObj [("error", JStr "Bad Request")])), d).
Proof.
  intros Hn Hi Hp. rewrite create_plant_object, Hn, Hi, Hp.
  cbn [is_null]. rewrite orb_true_r. reflexivity.
Qed.

Lemma create_plant_null_price_witness :
  create_plant repr_text no_faults (aloe JNull) empty_db
  = (Returned (mkResponse 400 (JObj [("error", JStr "Bad Request")])), empty_db).
Proof.
  apply (create_plant_null_price repr_text no_faults _ empty_db
           (JStr "Aloe") (JStr "./images/aloe.jpg"));
    reflexivity.
Defined.

(** X6: a price that [Decimal] reads as a quiet NaN passes the checks of
    the view, is kept by SQLite as NULL and refused by the NOT NULL
    column: with a text name and a text image the answer is 400 through
    the IntegrityError branch, and the database is left as it was. *)
Theorem create_plant_nan_price rt (m : list (string * json)) (d : db)
    (n i : string) (p : json) (neg : bool) (payload : Z) :
  session d = [] ->
  dict_lookup "name" m = Some (JStr n) ->
  dict_lookup "image" m = Some (JStr i) ->
  dict_lookup "price" m = Some p ->
  n <> "" -> i <> "" ->
  Decimal (py_str p) = inr (DNaN neg false payload) ->
  create_plant rt no_faults (JObj m) d
  = (Returned (mkResponse 400 (JObj [("error", JStr "Bad Request")])), d).
Proof.
  intros Hs Hn Hi Hp Nn Ni Hd.
  rewrite (create_plant_commit_raises rt no_faults m d (JStr n) (JStr i) p
             (DNaN neg false payload) integrity_error Hs Hn Hi Hp
             (truthy_text n Nn) (truthy_text i Ni) Hd).
  - reflexivity.
  - right. split; reflexivity.
Qed.

Lemma create_plant_nan_price_witness :
  create_plant repr_text no_faults (aloe (JFloat "nan")) empty_db
  = (Returned (mkResponse 400 (JObj [("error", JStr "Bad Request")])), empty_db).
Proof.
  apply (create_plant_nan_price repr_text _ empty_db "Aloe" "./images/aloe.jpg"
           (JFloat "nan") false 0);
    try reflexivity; discriminate.
Defined.

(** X7: a price that [Decimal] reads as a signaling NaN passes the
    checks of the view and fails in the bind processor of the column,
    which cannot make a float of it: the answer is 500 and the database
    is left as it was. *)
Theorem create_plant_snan_price rt (m : list (string * json)) (d : db)
    (n i p : json) (neg : bool) (payload : Z) :
  session d = [] ->
  dict_lookup "name" m = Some n ->
  dict_lookup "image" m = Some i ->
  dict_lookup "price" m = Some p ->
  truthy n = true -> truthy i = true ->
  Decimal (py_str p) = inr (DNaN neg true payload) ->
  create_plant rt no_faults (JObj m) d
  = (Returned (mkResponse 500 (JObj [("error", JStr "Internal Server Error")])), d).
Proof.
  intros Hs Hn Hi Hp Tn Ti Hd.
  rewrite (create_plant_commit_raises rt no_faults m d n i p
             (DNaN neg true payload)
             (mkExn StatementError "cannot convert signaling NaN to float")
             Hs Hn Hi Hp Tn Ti Hd).
  - reflexivity.
  - right. split; reflexivity.
Qed.

Lemma create_plant_snan_price_witness :
  create_plant repr_text no_faults (aloe (JStr "sNaN")) empty_db
  = (Returned (mkResponse 500 (JObj [("error", JStr "Internal Server Error")])),
     empty_db).
Proof.
  apply (create_plant_snan_price repr_text _ empty_db
           (JStr "Aloe") (JStr "./images/aloe.jpg") (JStr "sNaN") false 0);
    reflexivity.
Defined.

Lemma insert_row_unbindable rt random (n i : json) (price : decimal)
    (t : list Plant) :
  unbindable n = true \/ unbindable i = true ->
  exists e, insert_row rt random n i price t = inl e
            /\ issubclass (exc_class e) IntegrityError = false.
Proof.
  intros H. unfold insert_row, bind_price.
  destruct (to_float price) as [e | f].
  { eexists. split; reflexivity. }
  assert (Hp : exists cp, match f with
                          | FNaN => inr None
                          | _ => inr (Some (numeric_affinity f))
                          end = @inr pyexn _ cp)
    by (destruct f; eexists; reflexivity).
  destruct Hp as [cp ->].
  destruct n as [| b | z | r | s | [| x l] | [| kv l]];
    destruct H as [H | H]; try discriminate H;
    try (eexists; split; reflexivity);
    cbn [bind_text];
    repeat match goal with
           | |- context [if ?c then _ else _] => destruct c
           end;
    try (eexists; split; reflexivity);
    destruct i as [| b' | z' | r' | s' | [| x' l'] | [| kv' l']];
    try discriminate H; cbn [bind_text];
    eexists; split; reflexivity.
Qed.

(** X8: a name or an image that is a non-empty list or dict passes the
    checks of the view, which ask for truthiness only, and fails when
    it is bound to its column: the answer is 500 and the database is
    left as it was. *)
Theorem create_plant_unbindable_text rt (m : list (string * json)) (d : db)
    (n i p : json) (price : decimal) :
  session d = [] ->
  dict_lookup "name" m = Some n ->
  dict_lookup "image" m = Some i ->
  dict_lookup "price" m = Some p ->
  truthy n = true -> truthy i = true ->
  unbindable n = true \/ unbindable i = true ->
  Decimal (py_str p) = inr price ->
  create_plant rt no_faults (JObj m) d
  = (Returned (mkResponse 500 (JObj [("error", JStr "Internal Server Error")])), d).
Proof.
  intros Hs Hn Hi Hp Tn Ti Hu Hd.
  destruct (insert_row_unbindable rt 0 n i price (table d) Hu) as [e [He Hc]].
  rewrite (create_plant_commit_raises rt no_faults m d n i p price e
             Hs Hn Hi Hp Tn Ti Hd).
  - now rewrite Hc.
  - right. split; [reflexivity | assumption].
Qed.

Lemma create_plant_unbindable_text_witness :
  create_plant repr_text no_faults
    (JObj [("name", JArr [JStr "Aloe"]); ("image", JStr "./images/aloe.jpg");
           ("price", JStr "11.50")]) empty_db
  = (Returned (mkResponse 500 (JObj [("error", JStr "Internal Server Error")])),
     empty_db).
Proof.
  apply (create_plant_unbindable_text repr_text _ empty_db
           (JArr [JStr "Aloe"]) (JStr "./images/aloe.jpg") (JStr "11.50")
           (DFinite false 1150 (-2)));
    try reflexivity.
  left. reflexivity.
Defined.

(** X9: when the commit of a create raises, the view rolls back and
    answers 400 for an IntegrityError and 500 for any other exception;
    the database is left as it was. *)
Theorem create_plant_commit_fault rt fl (m : list (string * json)) (d : db)
    (n i p : json) (price : decimal) (e : pyexn) :
  session d = [] ->
  dict_lookup "name" m = Some n ->
  dict_lookup "image" m = Some i ->
  dict_lookup "price" m = Some p ->
  truthy n = true -> truthy i = true ->
  Decimal (py_str p) = inr price ->
  commit_fault fl = Some e ->
  create_plant rt fl (JObj m) d
  = (Returned
       (if issubclass (exc_class e) IntegrityError
        then mkResponse 400 (JObj [("error", JStr "Bad Request")])
        else mkResponse 500 (JObj [("error", JStr "Internal Server Error")])),
     d).
Proof.
  intros Hs Hn Hi Hp Tn Ti Hd He.
  apply (create_plant_commit_raises rt fl m d n i p price e); trivial.
  now left.
Qed.

Lemma create_plant_commit_fault_witness :
  create_plant repr_text
    (mkFaults None (Some (mkExn IntegrityError "UNIQUE constraint failed")) 0)
    (aloe (JStr "11.50")) empty_db
  = (Returned
       (if issubclass (exc_class (mkExn IntegrityError "UNIQUE constraint failed"))
             IntegrityError
        then mkResponse 400 (JObj [("error", JStr "Bad Request")])
        else mkResponse 500 (JObj [("error", JStr "Internal Server Error")])),
     empty_db).
Proof.
  apply (create_plant_commit_fault repr_text
           (mkFaults None (Some (mkExn IntegrityError "UNIQUE constraint failed")) 0)
           _ empty_db (JStr "Aloe") (JStr "./images/aloe.jpg") (JStr "11.50")
           (DFinite false 1150 (-2)));
    reflexivity.
Defined.

(** X23: a create whose commit succeeds and whose reading of the new
    row raises is answered through the except branches, 400 for an
    IntegrityError and 500 for any other exception, although its record
    is committed: the rollback before the answer finds nothing to undo,
    GET /plants lists one record more, and GET with the new id answers
    200 with the record. *)
Theorem create_plant_read_back rt fl (m : list (string * json)) (d : db)
    (n i : string) (p : json) (price : decimal) (e : pyexn) :
  session d = [] -> max_id (table d) < MAX_ROWID ->
  dict_lookup "name" m = Some (JStr n) ->
  dict_lookup "image" m = Some (JStr i) ->
  dict_lookup "price" m = Some p ->
  n <> "" -> i <> "" ->
  Decimal (py_str p) = inr price -> is_finite price = true ->
  commit_fault fl = None -> query_fault fl = Some e ->
  exists row,
    create_plant rt fl (JObj m) d
    = (Returned
         (if issubclass (exc_class e) IntegrityError
          then mkResponse 400 (JObj [("error", JStr "Bad Request")])
          else mkResponse 500 (JObj [("error", JStr "Internal Server Error")])),
       mkDb (table d ++ [row]) [])
    /\ name row = n /\ image row = i
    /\ find_row (id row) (table d) = None
    /\ listed (mkDb (table d ++ [row]) []) = listed d + 1
    /\ get_plant_by_id no_faults (id row) (mkDb (table d ++ [row]) [])
       = (Returned (mkResponse 200 (to_dict row)), mkDb (table d ++ [row]) []).
Proof.
  intros Hs Hmax Hn Hi Hp Nn Ni Hd Hfin Hcf Hq.
  assert (Hnan : is_nan price = false) by (destruct price; trivial; discriminate).
  destruct (bind_price_number price Hnan) as [f Hf].
  destruct (next_rowid_below (rowid_random fl) (table d) Hmax) as [k [Hk [Hfit Habove]]].
  pose proof (next_rowid_fresh _ _ _ Hk) as Hfree.
  exists (mkPlant k n i f). cbn [id name image].
  assert (Hlast : find_row k (table d ++ [mkPlant k n i f]) = Some (mkPlant k n i f)).
  { rewrite (find_row_last _ _ _ Hfree). cbn [id]. now rewrite Z.eqb_refl. }
  repeat split; trivial.
  - rewrite create_plant_object, Hn, Hi, Hp.
    rewrite (truthy_text n Nn), (truthy_text i Ni), (parsed_price_not_null p price Hd).
    cbn [negb orb]. rewrite Hd.
    unfold create_body, session_commit, session_refresh.
    cbn [session_add session table]. rewrite Hcf, Hq, Hs.
    cbn [app flush List.length]. unfold insert_row. rewrite Hf.
    cbn [bind_text]. rewrite Hk, (place_row_last (mkPlant k n i f) (table d) Habove).
    cbn [nth]. unfold session_rollback. cbn [table].
    rewrite every_exception_caught. unfold caught_by. cbn [existsb].
    rewrite orb_false_r. destruct (issubclass (exc_class e) IntegrityError); reflexivity.
  - rewrite !listed_length. cbn [table]. rewrite length_app. cbn [List.length]. lia.
  - unfold get_plant_by_id, query_get. cbn [query_fault no_faults table].
    rewrite Hfit, Hlast. reflexivity.
Qed.

Lemma create_plant_read_back_witness :
  exists row,
    create_plant repr_text
      (mkFaults (Some (mkExn OperationalError "database is locked")) None 0)
      (aloe (JStr "11.50")) empty_db
    = (Returned
         (if issubclass (exc_class (mkExn OperationalError "database is locked"))
               IntegrityError
          then mkResponse 400 (JObj [("error", JStr "Bad Request")])
          else mkResponse 500 (JObj [("error", JStr "Internal Server Error")])),
       mkDb (table empty_db ++ [row]) [])
    /\ name row = "Aloe" /\ image row = "./images/aloe.jpg"
    /\ find_row (id row) (table empty_db) = None
    /\ listed (mkDb (table empty_db ++ [row]) []) = listed empty_db + 1
    /\ get_plant_by_id no_faults (id row) (mkDb (table empty_db ++ [row]) [])
       = (Returned (mkResponse 200 (to_dict row)), mkDb (table empty_db ++ [row]) []).
Proof.
  apply (create_plant_read_back repr_text
           (mkFaults (Some (mkExn OperationalError "database is locked")) None 0)
           _ empty_db "Aloe" "./images/aloe.jpg" (JStr "11.50")
           (DFinite false 1150 (-2)) (mkExn OperationalError "database is locked"));
    try reflexivity; discriminate.
Defined.

(** X10: when the commit of a delete raises, the view rolls back and
    answers 500, and the record is still there: GET with its id answers
    200 with it. *)
Theorem delete_plant_commit_fault rt fl (k : Z) (d : db) (plant : Plant) (e : pyexn) :
  session d = [] -> query_fault fl = None -> fits_int64 k = true ->
  find_row k (table d) = Some plant ->
  commit_fault fl = Some e ->
  delete_plant rt fl k d
  = (Returned (mkResponse 500 (JObj [("error", JStr "Internal Server Error")])), d)
  /\ get_plant_by_id no_faults k (snd (delete_plant rt fl k d))
     = (Returned (mkResponse 200 (to_dict plant)), d).
Proof.
  intros Hs Hq Hk Hf He.
  assert (Hdel : delete_plant rt fl k d
                 = (Returned (mkResponse 500 (JObj [("error", JStr "Internal Server Error")])),
                    d)).
  { unfold delete_plant, query_get, session_commit. rewrite Hq, Hk, Hf, He.
    rewrite every_exception_caught.
    unfold session_rollback, session_add. cbn [table]. now rewrite (clean_db d Hs). }
  rewrite Hdel. split; [reflexivity |]. cbn [snd].
  unfold get_plant_by_id, query_get. cbn [query_fault no_faults].
  now rewrite Hk, Hf.
Qed.

Lemma delete_plant_commit_fault_witness :
  delete_plant repr_text
    (mkFaults None (Some (mkExn OperationalError "database is locked")) 0) 1
    (mkDb [mkPlant 1 "Aloe" "./images/aloe.jpg" (FFinite false 7 0)] [])
  = (Returned (mkResponse 500 (JObj [("error", JStr "Internal Server Error")])),
     mkDb [mkPlant 1 "Aloe" "./images/aloe.jpg" (FFinite false 7 0)] [])
  /\ get_plant_by_id no_faults 1
       (snd (delete_plant repr_text
               (mkFaults None (Some (mkExn OperationalError "database is locked")) 0) 1
               (mkDb [mkPlant 1 "Aloe" "./images/aloe.jpg" (FFinite false 7 0)] [])))
     = (Returned
          (mkResponse 200
             (to_dict (mkPlant 1 "Aloe" "./images/aloe.jpg" (FFinite false 7 0)))),
        mkDb [mkPlant 1 "Aloe" "./images/aloe.jpg" (FFinite false 7 0)] []).
Proof.
  apply (delete_plant_commit_fault repr_text
           (mkFaults None (Some (mkExn OperationalError "database is locked")) 0) 1
           (mkDb [mkPlant 1 "Aloe" "./images/aloe.jpg" (FFinite false 7 0)] [])
           (mkPlant 1 "Aloe" "./images/aloe.jpg" (FFinite false 7 0))
           (mkExn OperationalError "database is locked"));
    reflexivity.
Defined.

(** ** Bodies that are no object, ids beyond 64 bits *)

Lemma py_in_raises (k : string) (data : json) (e : pyexn) :
  py_in k data = inl e -> exc_class e = TypeError.
Proof.
  destruct data; cbn; try discriminate; intros H; injection H as <-; reflexivity.
Qed.

Lemma all_in_raises (ks : list string) (data : json) (e : pyexn) :
  all_in ks data = inl e -> exc_class e = TypeError.
Proof.
  induction ks as [| k ks IH]; cbn [all_in]; [discriminate |].
  destruct (py_in k data) as [e' | []] eqn:Hin; [| exact IH | discriminate].
  intros H. injection H as <-. now apply (py_in_raises k data).
Qed.

Lemma py_get_raises (k : string) (data : json) :
  (forall m, data <> JObj m) ->
  py_get k data = inl (mkExn AttributeError "object has no attribute 'get'").
Proof.
  intros Hno. destruct data; try reflexivity. now elim (Hno members).
Qed.

(** X11: a body that is not a JSON object never creates a record and
    leaves the database as it was.  A falsy one, or a str or list that
    lacks one of the three key names, is answered 400; a truthy number
    or [true] raises TypeError at [k in data]; a str or a list that
    holds the three key names raises AttributeError at [data.get]. *)
Theorem create_plant_other_bodies rt fl (data : json) (d : db) :
  (forall m, data <> JObj m) ->
  snd (create_plant rt fl data d) = d
  /\ (truthy data = false \/ all_in ["name"; "image"; "price"] data = inr false ->
      fst (create_plant rt fl data d)
      = Returned (mkResponse 400 (JObj [("error", JStr "Bad Request")])))
  /\ (truthy data = true ->
      forall e, all_in ["name"; "image"; "price"] data = inl e ->
      fst (create_plant rt fl data d) = Raised e /\ exc_class e = TypeError)
  /\ (truthy data = true ->
      all_in ["name"; "image"; "price"] data = inr true ->
      exists e, fst (create_plant rt fl data d) = Raised e
                /\ exc_class e = AttributeError).
Proof.
  intros Hno. split; [| split; [| split]].
  - destruct (create_plant_not_object rt fl data d Hno) as [o [-> _]]. reflexivity.
  - intros H. unfold create_plant.
    destruct (truthy data); cbn [negb]; [| reflexivity].
    destruct H as [H | H]; [discriminate | now rewrite H].
  - intros Ht e Ha. unfold create_plant. rewrite Ht, Ha. cbn [negb fst].
    split; [reflexivity | exact (all_in_raises _ data e Ha)].
  - intros Ht Ha. unfold create_plant. rewrite Ht, Ha. cbn [negb].
    rewrite !(py_get_raises _ data Hno). eexists. split; reflexivity.
Qed.

Lemma create_plant_other_bodies_witness :
  snd (create_plant repr_text no_faults (JStr "name, image, price") empty_db)
  = empty_db
  /\ (truthy (JStr "name, image, price") = false
      \/ all_in ["name"; "image"; "price"] (JStr "name, image, price") = inr false ->
      fst (create_plant repr_text no_faults (JStr "name, image, price") empty_db)
      = Returned (mkResponse 400 (JObj [("error", JStr "Bad Request")])))
  /\ (truthy (JStr "name, image, price") = true ->
      forall e,
        all_in ["name"; "image"; "price"] (JStr "name, image, price") = inl e ->
        fst (create_plant repr_text no_faults (JStr "name, image, price") empty_db)
        = Raised e /\ exc_class e = TypeError)
  /\ (truthy (JStr "name, image, price") = true ->
      all_in ["name"; "image"; "price"] (JStr "name, image, price") = inr true ->
      exists e,
        fst (create_plant repr_text no_faults (JStr "name, image, price") empty_db)
        = Raised e
        /\ exc_class e = AttributeError).
Proof.
  apply (create_plant_other_bodies repr_text no_faults
           (JStr "name, image, price") empty_db).
  intros m. discriminate.
Defined.

(** X12: an id beyond the 64-bit integers is refused by the driver when
    the query binds it; the query stands before the [try], so the
    exception leaves both views: the answer is 500 and not 404, though
    no record has that id, and the database is left as it was. *)
Theorem id_beyond_int64 rt fl (k : Z) (d : db) :
  query_fault fl = None -> fits_int64 k = false ->
  (exists e, get_plant_by_id fl k d = (Raised e, d)
             /\ delete_plant rt fl k d = (Raised e, d)
             /\ exc_class e = OverflowError)
  /\ status_of (fst (get_plant_by_id fl k d)) = 500
  /\ status_of (fst (delete_plant rt fl k d)) = 500.
Proof.
  intros Hq Hk. unfold get_plant_by_id, delete_plant, query_get.
  rewrite Hq, Hk. split; [eexists |]; repeat split.
Qed.

Lemma id_beyond_int64_witness :
  (exists e, get_plant_by_id no_faults (2 ^ 63) empty_db = (Raised e, empty_db)
             /\ delete_plant repr_text no_faults (2 ^ 63) empty_db = (Raised e, empty_db)
             /\ exc_class e = OverflowError)
  /\ status_of (fst (get_plant_by_id no_faults (2 ^ 63) empty_db)) = 500
  /\ status_of (fst (delete_plant repr_text no_faults (2 ^ 63) empty_db)) = 500.
Proof.
  apply (id_beyond_int64 repr_text no_faults (2 ^ 63) empty_db); reflexivity.
Defined.

(** ** How the requests act on one another *)

Lemma created_id_of_failure (o : outcome) :
  status_of o <> 201 -> created_id o = None.
Proof.
  destruct o as [r |]; [| reflexivity]. cbn [status_of created_id].
  intros H. destruct (Z.eqb_spec (status r) 201); [contradiction | reflexivity].
Qed.

(** X13: a request changes the answer of GET /plants/<j> only if it is a
    DELETE of [j] or a create that was given the id [j].  Every other
    request leaves that answer as it was, whatever its commit meets and,
    for a read or a delete, whatever its query meets; of a create it is
    asked that it reads its new row back, so that its answer tells the
    id it was given. *)
Theorem other_requests_keep_the_answer rt fl fl' (req : request) (j : Z) (d : db) :
  session d = [] ->
  reads_back (fl, req) = true ->
  req <> DeletePlant j ->
  created_id (fst (handle rt fl req d)) <> Some j ->
  fst (get_plant_by_id fl' j (snd (handle rt fl req d)))
  = fst (get_plant_by_id fl' j d).
Proof.
  intros Hs Hr Hreq Hid.
  assert (Hfind : find_row j (table (snd (handle rt fl req d))) = find_row j (table d)).
  { destruct req as [| k | data | k]; cbn [handle] in *.
    - now rewrite (get_plants_keeps fl d Hs).
    - now rewrite (get_plant_by_id_keeps fl k d).
    - apply reads_back_create in Hr.
      destruct (create_plant_result rt fl data d Hs)
        as [[row [Hc _]] | [[row [o' [_ [_ [_ Hq]]]]] | [o' [Hc Hst]]]];
        [| contradiction |]; rewrite Hc in *; cbn [fst snd table] in *.
      + rewrite created_id_of_row in Hid. apply find_row_placed_other. congruence.
      + reflexivity.
    - destruct (delete_plant_result rt fl k d Hs)
        as [[plant [Hf Hc]] | [o' [Hc Hst]]]; rewrite Hc; cbn [fst snd table].
      + apply find_row_other. congruence.
      + reflexivity. }
  unfold get_plant_by_id, query_get.
  destruct (query_fault fl'); [reflexivity |].
  destruct (fits_int64 j); [| reflexivity].
  rewrite Hfind. destruct (find_row j (table d)); reflexivity.
Qed.

Lemma other_requests_keep_the_answer_witness :
  fst (get_plant_by_id no_faults 1
         (snd (handle repr_text
                 (mkFaults None (Some (mkExn OperationalError "database is locked")) 0)
                 (CreatePlant (aloe (JStr "11.50")))
                 (mkDb [mkPlant 1 "Aloe" "./images/aloe.jpg" (FFinite false 7 0);
                        mkPlant 2 "ZZ Plant" "./images/zz-plant.jpg" (FFinite false 7 0)]
                    []))))
  = fst (get_plant_by_id no_faults 1
           (mkDb [mkPlant 1 "Aloe" "./images/aloe.jpg" (FFinite false 7 0);
                  mkPlant 2 "ZZ Plant" "./images/zz-plant.jpg" (FFinite false 7 0)] [])).
Proof.
  apply (other_requests_keep_the_answer repr_text
           (mkFaults None (Some (mkExn OperationalError "database is locked")) 0)
           no_faults (CreatePlant (aloe (JStr "11.50"))) 1);
    [reflexivity | reflexivity | discriminate | discriminate].
Defined.

Lemma next_rowid_above (random : Z) (t : list Plant) (k : Z) :
  max_id t < MAX_ROWID ->
  next_rowid random t = Some k -> t = [] /\ k = 1 \/ t <> [] /\ k = max_id t + 1.
Proof.
  unfold next_rowid. destruct t as [| q t].
  - intros _ H. injection H as <-. now left.
  - intros Hlt. destruct (Z.ltb_spec (max_id (q :: t)) MAX_ROWID) as [_ | Hge]; [| lia].
    intros Hk. injection Hk as <-. right. split; [discriminate | reflexivity].
Qed.

(** X15: while the ids stay below the last 64-bit integer, of two
    creates served one after the other and both answered 201 the second
    is given the id after the first one's. *)
Theorem consecutive_creates rt fl1 fl2 (data1 data2 : json) (d d1 d2 : db)
    (o1 o2 : outcome) (k1 k2 : Z) :
  session d = [] -> max_id (table d) < MAX_ROWID - 1 ->
  serve rt fl1 (CreatePlant data1) d = (o1, d1) ->
  serve rt fl2 (CreatePlant data2) d1 = (o2, d2) ->
  created_id o1 = Some k1 -> created_id o2 = Some k2 ->
  k2 = k1 + 1.
Proof.
  intros Hs Hmax H1 H2 Hk1 Hk2. unfold serve in H1, H2. cbn [handle] in H1, H2.
  destruct (create_plant_result rt fl1 data1 d Hs)
    as [[row1 [Hc1 [Hn1 _]]] | [[row [o' [Hc [Hst _]]]] | [o' [Hc Hst]]]].
  2,3: rewrite Hc in H1; injection H1 as <- <-;
       rewrite (created_id_of_failure o' Hst) in Hk1; discriminate.
  rewrite Hc1 in H1. injection H1 as <- <-.
  rewrite created_id_of_row in Hk1. injection Hk1 as <-.
  unfold teardown in H2. cbn [table] in H2.
  destruct (create_plant_result rt fl2 data2 (mkDb (place_row row1 (table d)) []) eq_refl)
    as [[row2 [Hc2 [Hn2 _]]] | [[row [o' [Hc [Hst _]]]] | [o' [Hc Hst]]]].
  2,3: rewrite Hc in H2; injection H2 as <- <-;
       rewrite (created_id_of_failure o' Hst) in Hk2; discriminate.
  rewrite Hc2 in H2. injection H2 as <- <-.
  rewrite created_id_of_row in Hk2. injection Hk2 as <-.
  cbn [table] in Hn2.
  assert (Hid1 : id row1 = 1 /\ table d = [] \/ id row1 = max_id (table d) + 1).
  { assert (Hlt0 : max_id (table d) < MAX_ROWID) by lia.
    destruct (next_rowid_above _ _ _ Hlt0 Hn1) as [[He Hk1] | [Hne Hk1]]; tauto. }
  pose proof (max_id_placed row1 (table d)) as Hmp.
  assert (Hmax1 : max_id (place_row row1 (table d)) = id row1).
  { destruct Hid1 as [[H1 He] | H1]; [| lia].
    rewrite Hmp, He, H1. reflexivity. }
  assert (Hlt1 : max_id (place_row row1 (table d)) < MAX_ROWID).
  { rewrite Hmax1. destruct Hid1 as [[H1 _] | H1]; [rewrite H1; reflexivity | lia]. }
  destruct (next_rowid_above _ _ _ Hlt1 Hn2) as [[He _] | [_ Hk]].
  - pose proof (place_row_length row1 (table d)) as Hlen.
    rewrite He in Hlen. discriminate.
  - lia.
Qed.

Lemma consecutive_creates_witness : 2 = 1 + 1.
Proof.
  apply (consecutive_creates repr_text no_faults no_faults
           (aloe (JStr "11.50")) (aloe (JFloat "25.98")) empty_db
           (snd (serve repr_text no_faults (CreatePlant (aloe (JStr "11.50"))) empty_db))
           (snd (serve repr_text no_faults (CreatePlant (aloe (JFloat "25.98")))
                   (snd (serve repr_text no_faults
                           (CreatePlant (aloe (JStr "11.50"))) empty_db))))
           (fst (serve repr_text no_faults (CreatePlant (aloe (JStr "11.50"))) empty_db))
           (fst (serve repr_text no_faults (CreatePlant (aloe (JFloat "25.98")))
                   (snd (serve repr_text no_faults
                           (CreatePlant (aloe (JStr "11.50"))) empty_db)))));
    reflexivity.
Defined.

(** X16: a DELETE that was answered 200 makes the same DELETE answer
    404 when it is sent again, and that second one leaves the database
    as the first one left it. *)
Theorem delete_twice rt fl (k : Z) (d : db) (plant : Plant) :
  session d = [] -> fits_int64 k = true -> find_row k (table d) = Some plant ->
  query_fault fl = None ->
  status_of (fst (delete_plant rt no_faults k d)) = 200
  /\ delete_plant rt fl k (snd (delete_plant rt no_faults k d))
     = (Returned (mkResponse 404 (JObj [("error", JStr "Resource not found")])),
        snd (delete_plant rt no_faults k d)).
Proof.
  intros Hs Hk Hf Hq.
  assert (Hdel : delete_plant rt no_faults k d
                 = (Returned (mkResponse 200 (JObj [("message", JStr (id_deleted k))])),
                    mkDb (delete_row k (table d)) [])).
  { destruct (find_row_found _ _ _ Hf) as [_ Hid].
    unfold delete_plant, query_get, session_commit.
    cbn [query_fault commit_fault no_faults session_add session table].
    rewrite Hk, Hf, Hs, Hid. reflexivity. }
  rewrite Hdel. cbn [fst snd]. split; [reflexivity |].
  unfold delete_plant, query_get. cbn [table].
  now rewrite Hq, Hk, find_row_deleted.
Qed.

Lemma delete_twice_witness :
  status_of
    (fst (delete_plant repr_text no_faults 1
            (mkDb [mkPlant 1 "Aloe" "./images/aloe.jpg" (FFinite false 7 0)] []))) = 200
  /\ delete_plant repr_text no_faults 1
       (snd (delete_plant repr_text no_faults 1
               (mkDb [mkPlant 1 "Aloe" "./images/aloe.jpg" (FFinite false 7 0)] [])))
     = (Returned (mkResponse 404 (JObj [("error", JStr "Resource not found")])),
        snd (delete_plant repr_text no_faults 1
               (mkDb [mkPlant 1 "Aloe" "./images/aloe.jpg" (FFinite false 7 0)] []))).
Proof.
  apply (delete_twice repr_text no_faults 1
           (mkDb [mkPlant 1 "Aloe" "./images/aloe.jpg" (FFinite false 7 0)] [])
           (mkPlant 1 "Aloe" "./images/aloe.jpg" (FFinite false 7 0)));
    reflexivity.
Defined.

(** ** The price through the column *)

Lemma round_half_even_close (n d : Z) :
  0 <= n -> 0 < d ->
  - d <= 2 * (round_half_even n d * d - n) <= d.
Proof.
  intros Hn Hd. unfold round_half_even.
  pose proof (Z.div_mod n d ltac:(lia)) as Hdm.
  pose proof (Z.mod_pos_bound n d Hd) as Hr.
  destruct (Z.ltb_spec (2 * (n mod d)) d); [nia |].
  destruct (Z.ltb_spec d (2 * (n mod d))); [nia |].
  destruct (Z.even (n / d)); nia.
Qed.

Lemma round_half_even_unique (n d r : Z) :
  0 <= n -> 0 < d ->
  - d < 2 * (r * d - n) < d ->
  round_half_even n d = r.
Proof.
  intros Hn Hd Hr. unfold round_half_even.
  pose proof (Z.div_mod n d ltac:(lia)) as Hdm.
  pose proof (Z.mod_pos_bound n d Hd) as Hm.
  assert (Hcases : r = n / d \/ r = n / d + 1) by nia.
  destruct (Z.ltb_spec (2 * (n mod d)) d);
    [| destruct (Z.ltb_spec d (2 * (n mod d)))];
    destruct Hcases as [-> | ->]; nia.
Qed.

(** The float nearest to [c / 100], for [0 < c < 100 * 2 ^ 46], has its
    hundredfold rounded back to [c]. *)
Lemma float_of_ratio_round_trip (neg : bool) (num den c : Z) :
  0 < num -> 0 < den -> c * den = 100 * num -> c < 100 * 2 ^ 46 ->
  exists m e,
    float_of_ratio neg num den = FFinite neg m e
    /\ 0 < m
    /\ to_decimal (FFinite neg m e) = DFinite neg c (-2).
Proof.
  intros Hnum Hden Hc Hlt.
  assert (Hbound : num < den * 2 ^ 46) by nia.
  unfold float_of_ratio.
  set (l := Z.log2 num - Z.log2 den).
  set (reaches := if 0 <=? l then den * 2 ^ l <=? num else den <=? num * 2 ^ (- l)).
  set (fl := if reaches then l else l - 1).
  assert (Hfl : fl <= 45).
  { assert (Hl : l <= 46).
    { unfold l.
      pose proof (Z.log2_le_mono num (den * 2 ^ 46) ltac:(lia)) as Hmono.
      rewrite (Z.log2_mul_pow2 den 46) in Hmono by lia. lia. }
    unfold fl. destruct reaches eqn:Hr; [| lia].
    destruct (Z.eq_dec l 46) as [E | E]; [| lia].
    exfalso. unfold reaches in Hr. rewrite E in Hr. cbn [Z.leb Z.compare] in Hr.
    apply Z.leb_le in Hr. lia. }
  set (e0 := Z.max (fl - 52) (-1074)).
  assert (He0 : e0 <= -7) by (unfold e0; lia).
  destruct (Z.leb_spec 0 e0) as [Hbad | _]; [lia |].
  set (s := 2 ^ (- e0)).
  assert (Hs : 128 <= s).
  { unfold s. change 128 with (2 ^ 7). apply Z.pow_le_mono_r; lia. }
  set (m0 := round_half_even (num * s) den).
  pose proof (round_half_even_close (num * s) den ltac:(nia) Hden) as Hclose.
  fold m0 in Hclose.
  assert (Hc1 : 1 <= c) by nia.
  assert (Hm0 : 0 < m0).
  { assert (H1 : den <= 100 * num) by nia.
    assert (H2 : 128 * num <= num * s) by nia.
    assert (H3 : 0 < m0 * den) by lia.
    nia. }
  assert (Hnear : -50 <= c * s - 100 * m0 <= 50).
  { assert (E : den * (c * s - 100 * m0) = 100 * (num * s - m0 * den)).
    { replace (den * (c * s - 100 * m0)) with (c * den * s - 100 * m0 * den) by ring.
      rewrite Hc. ring. }
    assert (H4 : -50 * den <= den * (c * s - 100 * m0) <= 50 * den) by lia.
    nia. }
  destruct (Z.eqb_spec m0 (2 ^ 53)) as [E53 | N53].
  - destruct (Z.ltb_spec 971 (e0 + 1)) as [Hbad | _]; [lia |].
    exists (2 ^ 52), (e0 + 1). split; [reflexivity |]. split; [reflexivity |].
    cbn [to_decimal].
    destruct (Z.leb_spec 0 (e0 + 1)) as [Hbad | _]; [lia |].
    f_equal.
    assert (Hs2 : s = 2 * 2 ^ (- (e0 + 1))).
    { unfold s. replace (- e0) with (Z.succ (- (e0 + 1))) by lia.
      apply Z.pow_succ_r. lia. }
    apply round_half_even_unique; [lia | lia |].
    rewrite E53 in Hnear. change (2 ^ 53) with (2 * 2 ^ 52) in Hnear. nia.
  - destruct (Z.ltb_spec 971 e0) as [Hbad | _]; [lia |].
    exists m0, e0. split; [reflexivity |]. split; [assumption |].
    cbn [to_decimal].
    destruct (Z.leb_spec 0 e0) as [Hbad | _]; [lia |].
    f_equal. fold s.
    apply round_half_even_unique; [lia | lia | nia].
Qed.

(** The bind processor and the result processor of the column give a
    price of at most two fractional digits back as it was, with two
    fractional digits, as long as its hundredfold is below
    [100 * 2 ^ 46]; only a negative zero loses its sign. *)
Lemma price_round_trip (neg : bool) (c e : Z) :
  0 <= c -> -2 <= e -> c * 10 ^ (e + 2) < 100 * 2 ^ 46 ->
  exists f,
    bind_price (DFinite neg c e) = inr (Some f)
    /\ to_decimal f = DFinite (neg && negb (c =? 0)) (c * 10 ^ (e + 2)) (-2).
Proof.
  intros Hc He Hlt. unfold bind_price, to_float.
  destruct (Z.eqb_spec c 0) as [-> | Hnz].
  - eexists. split; [reflexivity |]. cbn [numeric_affinity to_decimal].
    now rewrite andb_false_r.
  - cbn [negb]. rewrite andb_true_r.
    assert (Hex : exists m e',
               (if 0 <=? e then float_of_ratio neg (c * 10 ^ e) 1
                else float_of_ratio neg c (10 ^ (- e))) = FFinite neg m e'
               /\ 0 < m
               /\ to_decimal (FFinite neg m e')
                  = DFinite neg (c * 10 ^ (e + 2)) (-2)).
    { destruct (Z.leb_spec 0 e) as [Hpos | Hneg].
      - assert (Hp10 : 0 < 10 ^ e) by (apply Z.pow_pos_nonneg; lia).
        assert (Hnum : 0 < c * 10 ^ e) by nia.
        assert (Heq : c * 10 ^ (e + 2) * 1 = 100 * (c * 10 ^ e)).
        { rewrite Z.pow_add_r by lia. change (10 ^ 2) with 100. ring. }
        exact (float_of_ratio_round_trip neg _ 1 _ Hnum ltac:(lia) Heq Hlt).
      - assert (Hp10 : 0 < 10 ^ (- e)) by (apply Z.pow_pos_nonneg; lia).
        assert (Heq : c * 10 ^ (e + 2) * 10 ^ (- e) = 100 * c).
        { rewrite <- Z.mul_assoc, <- Z.pow_add_r by lia.
          replace (e + 2 + - e) with 2 by lia. change (10 ^ 2) with 100. ring. }
        exact (float_of_ratio_round_trip neg c _ _ ltac:(lia) Hp10 Heq Hlt). }
    destruct Hex as [m [e' [-> [Hm Hd]]]].
    exists (FFinite neg m e'). unfold numeric_affinity.
    destruct (Z.eqb_spec m 0); [lia |]. split; [reflexivity | assumption].
Qed.

(** X17: a create whose price has at most two fractional digits and a
    hundredfold below [100 * 2 ^ 46], which covers every price of ten
    digits, is answered 201 with that very price, written with two
    fractional digits; a negative zero comes back without its sign. *)
Theorem create_plant_exact_price rt (m : list (string * json)) (d : db)
    (n i : string) (p : json) (neg : bool) (c e : Z) :
  session d = [] -> max_id (table d) < MAX_ROWID ->
  dict_lookup "name" m = Some (JStr n) ->
  dict_lookup "image" m = Some (JStr i) ->
  dict_lookup "price" m = Some p ->
  n <> "" -> i <> "" ->
  Decimal (py_str p) = inr (DFinite neg c e) ->
  0 <= c -> -2 <= e -> c * 10 ^ (e + 2) < 100 * 2 ^ 46 ->
  status_of (fst (create_plant rt no_faults (JObj m) d)) = 201
  /\ price_of (fst (create_plant rt no_faults (JObj m) d))
     = Some (JStr (decimal_str
                     (DFinite (neg && negb (c =? 0)) (c * 10 ^ (e + 2)) (-2)))).
Proof.
  intros Hs Hmax Hn Hi Hp Nn Ni Hd Hc He Hlt.
  destruct (price_round_trip neg c e Hc He Hlt) as [f [Hf Hback]].
  destruct (next_rowid_below 0 (table d) Hmax) as [k [Hk _]].
  pose proof (next_rowid_fresh _ _ _ Hk) as Hfree.
  assert (Hcreate :
    create_plant rt no_faults (JObj m) d
    = (Returned (mkResponse 201 (to_dict (mkPlant k n i f))),
       mkDb (place_row (mkPlant k n i f) (table d)) [])).
  { rewrite create_plant_object, Hn, Hi, Hp.
    rewrite (truthy_text n Nn), (truthy_text i Ni), (parsed_price_not_null p _ Hd).
    cbn [negb orb]. rewrite Hd.
    unfold create_body, session_commit, session_refresh.
    cbn [session_add session table commit_fault query_fault rowid_random no_faults].
    rewrite Hs.
    cbn [app flush List.length]. unfold insert_row. rewrite Hf.
    cbn [bind_text]. rewrite Hk. cbn [nth table].
    pose proof (find_row_placed (mkPlant k n i f) (table d) Hfree) as Hnew.
    cbn [id] in Hnew. now rewrite Hnew. }
  rewrite Hcreate. cbn [fst status_of status]. split; [reflexivity |].
  unfold price_of, to_dict. cbn [body price]. rewrite Hback. reflexivity.
Qed.

Lemma create_plant_exact_price_witness :
  status_of (fst (create_plant repr_text no_faults (aloe (JStr "1234567.8")) empty_db))
  = 201
  /\ price_of (fst (create_plant repr_text no_faults (aloe (JStr "1234567.8")) empty_db))
     = Some (JStr (decimal_str
                     (DFinite (false && negb (12345678 =? 0))
                        (12345678 * 10 ^ (-1 + 2)) (-2)))).
Proof.
  apply (create_plant_exact_price repr_text _ empty_db "Aloe" "./images/aloe.jpg"
           (JStr "1234567.8") false 12345678 (-1));
    try reflexivity; try discriminate.
Defined.

(** X18: a record whose stored price is a finite number is served with
    a price of exactly two fractional digits. *)
Theorem served_price_two_digits fl (k : Z) (d : db) (p : Plant) (neg : bool) (m e : Z) :
  query_fault fl = None -> fits_int64 k = true ->
  find_row k (table d) = Some p ->
  price p = FFinite neg m e -> 0 <= m ->
  exists t,
    price_of (fst (get_plant_by_id fl k d)) = Some (JStr t)
    /\ fraction_digits t = Some 2%nat.
Proof.
  intros Hq Hk Hf Hp Hm. unfold get_plant_by_id, query_get.
  rewrite Hq, Hk, Hf. unfold price_of, to_dict. cbn [fst body].
  eexists. split; [reflexivity |]. rewrite Hp.
  cbn [to_decimal]. apply decimal_str_scale_2.
  destruct (Z.leb_spec 0 e) as [He | He].
  - pose proof (Z.pow_nonneg 2 e ltac:(lia)). nia.
  - apply round_half_even_nonneg; [lia |]. apply Z.pow_pos_nonneg; lia.
Qed.

Lemma served_price_two_digits_witness :
  exists t,
    price_of
      (fst (get_plant_by_id no_faults 1
              (mkDb [mkPlant 1 "Aloe" "./images/aloe.jpg"
                       (FFinite false 6473924464345088 (-49))] [])))
    = Some (JStr t)
    /\ fraction_digits t = Some 2%nat.
Proof.
  apply (served_price_two_digits no_faults 1
           (mkDb [mkPlant 1 "Aloe" "./images/aloe.jpg"
                    (FFinite false 6473924464345088 (-49))] [])
           (mkPlant 1 "Aloe" "./images/aloe.jpg" (FFinite false 6473924464345088 (-49)))
           false 6473924464345088 (-49));
    try reflexivity. discriminate.
Defined.

(** * The seeding script and the repr *)

Lemma insert_aloe (t : list Plant) :
  Seed.insert_with_id Seed.aloe t
  = match find_row 1 t with
    | Some _ => inl (mkExn IntegrityError "UNIQUE constraint failed: plants.id")
    | None => inr (place_row seeded_aloe t)
    end.
Proof. reflexivity. Qed.

Lemma insert_zz_plant (t : list Plant) :
  Seed.insert_with_id Seed.zz_plant t
  = match find_row 2 t with
    | Some _ => inl (mkExn IntegrityError "UNIQUE constraint failed: plants.id")
    | None => inr (place_row seeded_zz_plant t)
    end.
Proof. reflexivity. Qed.

(** What the second [try] of the script makes of a table: both plants
    in their places, or an exception and nothing. *)
Lemma commit_all_result fl (t : list Plant) :
  (Seed.commit_all fl [Seed.aloe; Seed.zz_plant] t
   = inr (place_row seeded_zz_plant (place_row seeded_aloe t))
   /\ commit_fault fl = None
   /\ find_row 1 t = None /\ find_row 2 t = None)
  \/ (exists e, Seed.commit_all fl [Seed.aloe; Seed.zz_plant] t = inl e
                /\ (commit_fault fl <> None
                    \/ find_row 1 t <> None \/ find_row 2 t <> None)).
Proof.
  unfold Seed.commit_all.
  destruct (commit_fault fl) as [e |];
    [right; exists e; split; [reflexivity | left; discriminate] |].
  cbn [Seed.insert_all]. rewrite insert_aloe.
  destruct (find_row 1 t) as [x |] eqn:H1;
    [right; eexists; split; [reflexivity | right; left; discriminate] |].
  rewrite insert_zz_plant.
  rewrite (find_row_placed_other 2 seeded_aloe t) by discriminate.
  destruct (find_row 2 t) as [x |] eqn:H2;
    [right; eexists; split; [reflexivity | right; right; discriminate] |].
  left. repeat split.
Qed.

(** X19: with no fault the script leaves exactly its two plants, Aloe
    under id 1 and ZZ Plant under id 2 with the prices 11.50 and 25.98,
    whatever the table held before; so running it again changes
    nothing. *)
Theorem seed_replaces_the_table (t : list Plant) :
  Seed.seed no_faults no_faults t
  = inr (["Seeding database..."; "Existing plants deleted.";
          "Plants seeded successfully!"],
         [seeded_aloe; seeded_zz_plant])
  /\ map to_dict [seeded_aloe; seeded_zz_plant]
     = [JObj [("id", JInt 1); ("image", JStr "./images/aloe.jpg");
              ("name", JStr "Aloe"); ("price", JStr "11.50")];
        JObj [("id", JInt 2); ("image", JStr "./images/zz-plant.jpg");
              ("name", JStr "ZZ Plant"); ("price", JStr "25.98")]].
Proof.
  split; vm_compute; reflexivity.
Qed.

(** X20: whatever faults the script meets, no exception leaves it, the
    table keeps its primary key, and the seeding is all or nothing: the
    table ends with both plants under the ids 1 and 2, or empty, or as
    it was. *)
Theorem seed_is_all_or_nothing fl1 fl2 (t : list Plant) :
  primary_key t ->
  exists out t',
    Seed.seed fl1 fl2 t = inr (out, t')
    /\ primary_key t'
    /\ ((find_row 1 t' = Some seeded_aloe /\ find_row 2 t' = Some seeded_zz_plant)
        \/ t' = [] \/ t' = t).
Proof.
  intros Hpk. unfold Seed.seed.
  assert (Hfirst : exists out1 t1,
             match Seed.delete_all fl1 t with
             | inr t' => inr (["Seeding database..."] ++ ["Existing plants deleted."], t')
             | inl e =>
                 if caught_by e [Exception]
                 then
                   inr (["Seeding database..."]
                        ++ [String.append
                              "Error deleting existing plants (table might not exist yet): "
                              (exc_text e)],
                        t)
                 else inl e
             end = @inr pyexn _ (out1, t1)
             /\ (t1 = [] \/ t1 = t)).
  { destruct (Seed.delete_all fl1 t) as [e | t1] eqn:Hd.
    - rewrite every_exception_caught. eexists _, t. split; [reflexivity | now right].
    - unfold Seed.delete_all in Hd.
      destruct (query_fault fl1); [discriminate |].
      destruct (commit_fault fl1); [discriminate |].
      injection Hd as <-. eexists _, []. split; [reflexivity | now left]. }
  destruct Hfirst as [out1 [t1 [-> Ht1]]].
  assert (Hpk1 : primary_key t1) by (destruct Ht1 as [-> | ->]; [constructor | assumption]).
  destruct (commit_all_result fl2 t1) as [[-> [_ [H1 H2]]] | [e [-> _]]].
  - eexists _, _. split; [reflexivity |].
    assert (Hpa : primary_key (place_row seeded_aloe t1))
      by (apply primary_key_placed; assumption).
    split.
    + apply primary_key_placed; [assumption |].
      change (id seeded_zz_plant) with 2.
      now rewrite (find_row_placed_other 2 seeded_aloe t1) by discriminate.
    + left. split.
      * rewrite (find_row_placed_other 1 seeded_zz_plant) by discriminate.
        now apply (find_row_placed seeded_aloe t1).
      * apply (find_row_placed seeded_zz_plant).
        change (id seeded_zz_plant) with 2.
        now rewrite (find_row_placed_other 2 seeded_aloe t1) by discriminate.
  - rewrite every_exception_caught. eexists _, t1.
    split; [reflexivity |]. split; [assumption | right; exact Ht1].
Qed.

Lemma seed_is_all_or_nothing_witness :
  exists out t',
    Seed.seed (mkFaults (Some (mkExn OperationalError "no such table: plants")) None 0)
      no_faults [mkPlant 5 "Fern" "./images/fern.jpg" (FFinite false 7 0)]
    = inr (out, t')
    /\ primary_key t'
    /\ ((find_row 1 t' = Some seeded_aloe /\ find_row 2 t' = Some seeded_zz_plant)
        \/ t' = []
        \/ t' = [mkPlant 5 "Fern" "./images/fern.jpg" (FFinite false 7 0)]).
Proof.
  apply (seed_is_all_or_nothing
           (mkFaults (Some (mkExn OperationalError "no such table: plants")) None 0)
           no_faults [mkPlant 5 "Fern" "./images/fern.jpg" (FFinite false 7 0)]).
  repeat constructor. intros [].
Defined.

(** X21: when the first step fails, so that the old rows stay, and one
    of them has the id 1 or the id 2, the second step is refused for its
    primary key and the script leaves the table as it was, without
    either of its plants added. *)
Theorem seed_over_taken_ids fl1 fl2 (t : list Plant) :
  query_fault fl1 <> None \/ commit_fault fl1 <> None ->
  find_row 1 t <> None \/ find_row 2 t <> None ->
  exists out, Seed.seed fl1 fl2 t = inr (out, t).
Proof.
  intros Hfault Htaken. unfold Seed.seed.
  assert (Hd : exists e, Seed.delete_all fl1 t = inl e).
  { unfold Seed.delete_all.
    destruct (query_fault fl1) as [e |]; [eauto |].
    destruct (commit_fault fl1) as [e |]; [eauto |].
    destruct Hfault as [H | H]; now elim H. }
  destruct Hd as [e ->]. rewrite every_exception_caught.
  destruct (commit_all_result fl2 t) as [[_ [_ [H1 H2]]] | [e' [-> _]]].
  - destruct Htaken as [H | H]; now elim H.
  - rewrite every_exception_caught. eexists. reflexivity.
Qed.

Lemma seed_over_taken_ids_witness :
  exists out,
    Seed.seed (mkFaults None (Some (mkExn OperationalError "database is locked")) 0)
      no_faults [mkPlant 2 "Fern" "./images/fern.jpg" (FFinite false 7 0)]
    = inr (out, [mkPlant 2 "Fern" "./images/fern.jpg" (FFinite false 7 0)]).
Proof.
  apply (seed_over_taken_ids
           (mkFaults None (Some (mkExn OperationalError "database is locked")) 0)
           no_faults [mkPlant 2 "Fern" "./images/fern.jpg" (FFinite false 7 0)]).
  - right. discriminate.
  - right. discriminate.
Defined.


